(** * The REST router builder of [packages/rest/src/handlers.ts]

    A shallow embedding of the route discovery, authentication gate,
    dispatch adapter and error translator, followed by the properties the
    specification states about them.

    Conventions of the embedding:
    - a JavaScript string is a [string] of 8-bit characters; [toLowerCase]
      acts on the letters [A]-[Z], the only ones whose lower case can occur
      in an allowed method name;
    - [string | undefined] is [option string], and a test such as
      [if (x)] or [x || y] is written with [truthy];
    - a handler that throws (an [async] function whose promise rejects)
      returns [inl]; Express then skips to the error-handling middleware;
    - the response object keeps [res.statusCode] apart from what has been
      sent to the client, and [res.status] and [res.json] throw where
      Express and Node make them throw;
    - the external collaborators (the [jose] library, [URL], [JSON.parse],
      dynamic [import], [./util.js]) are the fields of [Env]. *)

From Stdlib Require Import ZArith Ascii.
From stdpp Require Import gmap strings list pretty.

Local Open Scope Z_scope.
Set Warnings "-register-all".

(** ** JavaScript string and array primitives *)

Module Js.

(** [s.startsWith(p)] *)
Definition startsWith (s p : string) : bool := String.prefix p s.

(** [s.endsWith(p)], used to describe what [glob('**/*.js')] yields. *)
Fixpoint endsWith (s p : string) : bool :=
  if String.eqb s p then true
  else match s with
       | EmptyString => false
       | String _ s' => endsWith s' p
       end.

(** [s.split(sep)] for a separator of one character: never empty. *)
Fixpoint split (sep : ascii) (s : string) : list string :=
  match s with
  | EmptyString => [EmptyString]
  | String c s' =>
      if Ascii.eqb c sep then EmptyString :: split sep s'
      else match split sep s' with
           | [] => [String c EmptyString]
           | w :: ws => String c w :: ws
           end
  end.

(** [l.join(sep)] *)
Definition join (sep : string) (l : list string) : string :=
  String.concat sep l.

Definition lowerChar (c : ascii) : ascii :=
  let n := N_of_ascii c in
  if ((65 <=? n) && (n <=? 90))%N then ascii_of_N (n + 32) else c.

(** [s.toLowerCase()] *)
Fixpoint toLowerCase (s : string) : string :=
  match s with
  | EmptyString => EmptyString
  | String c s' => String (lowerChar c) (toLowerCase s')
  end.

Fixpoint drop (n : nat) (s : string) : string :=
  match n, s with
  | O, _ => s
  | S n', String _ s' => drop n' s'
  | S _, EmptyString => EmptyString
  end.

(** [s.replace(pat, rep)] with a string pattern: the first occurrence
    only. *)
Fixpoint replace (pat rep s : string) : string :=
  if String.prefix pat s then rep +:+ drop (String.length pat) s
  else match s with
       | EmptyString => EmptyString
       | String c s' => String c (replace pat rep s')
       end.

(** [l.includes(x)] *)
Definition includes (l : list string) (x : string) : bool :=
  bool_decide (x ∈ l).

(** [parts.pop()]: the last element and what remains of the array. *)
Definition pop (l : list string) : option string * list string :=
  (last l, removelast l).

(** Truthiness of a string, and of [string | undefined]. *)
Definition truthy (s : string) : bool := negb (String.eqb s "").

Definition truthyO (o : option string) : bool :=
  match o with Some s => truthy s | None => false end.

(** [a || b] on [string | undefined]. *)
Definition or (a b : option string) : option string :=
  if truthyO a then a else b.

(** [scopes?.includes(x)], read in a condition. *)
Definition includesO (l : option (list string)) (x : string) : bool :=
  match l with Some l => includes l x | None => false end.

End Js.

(** [true] when the character occurs in the text. *)
Fixpoint hasChar (c : ascii) (s : string) : bool :=
  match s with
  | EmptyString => false
  | String c' s' => Ascii.eqb c' c || hasChar c s'
  end.

(** ** Values, errors and the HTTP objects *)

(** A value handed to [res.json] or carried as error data. Numbers are
    never computed on by the handlers. *)
Inductive JsValue :=
| JUndefined
| JNull
| JBool (b : bool)
| JNumber (n : Z)
| JString (s : string)
| JArray (items : list JsValue)
| JObject (fields : list (string * JsValue)).

(** An error that is not a [RestError]: [Error], [TypeError],
    [SyntaxError], or an error of the [jose] library. *)
Record Exn := mkExn { exnName : string; exnMessage : string }.

Definition Error (message : string) : Exn := mkExn "Error" message.
Definition TypeError (message : string) : Exn := mkExn "TypeError" message.
Definition SyntaxError (message : string) : Exn := mkExn "SyntaxError" message.

(** The message texts that [RestError.unauthorized()] and
    [RestError.forbidden()] use when called without one. *)
Class RestErrorTexts := {
  unauthorizedText : string;
  forbiddenText : string
}.

Module RestError.

(** Modelled from the spec: the class of [./RestError.js], which is not
    part of the sources. Its instances are the Error Envelope
    { httpStatusCode, errorData, errorMessage }; Unauthorized has the
    fixed status 401 and Forbidden the fixed status 403, and neither
    carries data. *)
Record t := mk { statusCode : Z; errorData : JsValue; errorMessage : string }.

(** Modelled from the spec: [RestError.unauthorized(message?)], the
    Unauthorized error, which the Error Translator maps to the fixed
    status 401. *)
Definition unauthorized `{RestErrorTexts} (message : option string) : t :=
  mk 401 JUndefined (default unauthorizedText message).

(** Modelled from the spec: [RestError.forbidden()], the Forbidden error
    (HTTP 403, no body). *)
Definition forbidden `{RestErrorTexts} : t :=
  mk 403 JUndefined forbiddenText.

End RestError.

(** What a handler can throw; [err instanceof RestError] is the first
    constructor. *)
Inductive Thrown :=
| ThrownRest (e : RestError.t)
| ThrownOther (e : Exn).

Definition instanceofRestError (err : Thrown) : bool :=
  match err with ThrownRest _ => true | ThrownOther _ => false end.

(** The verified claims of a token, as [jwtVerify] resolves them. *)
Record JWTPayload := mkPayload {
  payload_sub : option string;
  payload_name : option string;
  payload_aud : option string;
  payload_scope : option string
}.

(** [req.auth] *)
Record AuthContext := mkAuth {
  sub : option string;
  name : option string;
  aud : option string;
  scopes : option (list string)
}.

Module Request.

(** The request as the route handlers receive it: the body has been
    parsed by the [json] middleware, header names are in lower case. *)
Record t := mk {
  headers : gmap string string;
  body : JsValue;
  params : gmap string string;
  rawBody : option string;
  auth : option AuthContext
}.

(** [req.header(name)] *)
Definition header (req : t) (name : string) : option string :=
  headers req !! Js.toLowerCase name.

Definition setAuth (a : AuthContext) (req : t) : t :=
  mk (headers req) (body req) (params req) (rawBody req) (Some a).

End Request.

(** [RangeError], as [res.status] throws it. *)
Definition RangeError (message : string) : Exn := mkExn "RangeError" message.

(** What Node throws when a header is set or removed once the head of the
    response is on the wire. *)
Definition headersSentError : Exn :=
  mkExn "Error" "Cannot set headers after they are sent to the client".

Definition headersRemovedError : Exn :=
  mkExn "Error" "Cannot remove headers after they are sent to the client".

Module Response.

(** What has been written to the client: the status line; the value whose
    JSON text is the body, [None] when no body is written; the value the
    [ETag] header was computed from, if any. *)
Record Wire := mkWire {
  wire_status : Z;
  wire_body : option JsValue;
  wire_etag : option JsValue
}.

(** The response object: [res.statusCode]; what has been sent, if
    anything; and what [res.send] reads of the request through [res.req]:
    its method, and whether its cache validators (If-None-Match,
    If-Modified-Since) accept the entity tag of a body. *)
Record t := mk {
  statusCode : Z;
  sent : option Wire;
  reqMethod : string;
  reqValidates : option JsValue -> bool
}.

(** The response object as Node creates it, for a request that is not a
    HEAD request and carries no cache validators. *)
Definition fresh : t := mk 200 None "GET" (fun _ => false).

Definition sentStatus (res : t) : option Z := wire_status <$> sent res.

(** The value whose JSON text the client has received as the body. *)
Definition sentBody (res : t) : option JsValue := sent res ≫= wire_body.

(** [res.status(code)] of Express 5: the code must lie in 100..999. *)
Definition status (code : Z) (res : t) : Exn + t :=
  if (100 <=? code) && (code <=? 999) then
    inr (mk code (sent res) (reqMethod res) (reqValidates res))
  else
    inl (RangeError ("Invalid status code: " +:+ pretty code
                     +:+ ". Status code must be greater than 99 and less than 1000.")).

(** [req.fresh], as [res.send] reads it: a GET or HEAD request, a status
    that is 2xx or 304, and validators that accept the entity tag. *)
Definition reqFresh (res : t) (code : Z) (etag : option JsValue) : bool :=
  (String.eqb (reqMethod res) "GET" || String.eqb (reqMethod res) "HEAD")
  && (((200 <=? code) && (code <? 300)) || (code =? 304))
  && reqValidates res etag.

(** The statuses whose response carries no body: [res.send] empties it
    for 204, 205 and 304, Node drops it for 1xx. *)
Definition bodiless (code : Z) : bool :=
  (code <? 200) || (code =? 204) || (code =? 205) || (code =? 304).

(** [res.send] generates the entity tag from the text it is given; the
    JSON text of [undefined] is no text. *)
Definition etagSource (value : JsValue) : option JsValue :=
  match value with
  | JUndefined => None
  | _ => Some value
  end.

(** [res.json(value)], that is [res.send] of the JSON text of [value].
    On a response that has not been sent: a fresh request turns the
    status into 304, and the body is left out for a bodiless status and
    for a HEAD request. On a response that has been sent, setting the
    content type throws; only a second [res.json(undefined)] gets as far
    as the freshness test and the header removal of [res.send]. *)
Definition json (value : JsValue) (res : t) : Exn + t :=
  match sent res with
  | None =>
      let etag := etagSource value in
      let code := if reqFresh res (statusCode res) etag then 304 else statusCode res in
      let body := if bodiless code || String.eqb (reqMethod res) "HEAD"
                  then None else Some value in
      inr (mk code (Some (mkWire code body etag)) (reqMethod res) (reqValidates res))
  | Some w =>
      match value with
      | JUndefined =>
          if (wire_status w =? 204) || (wire_status w =? 304) then inl headersSentError
          else
            let code := if reqFresh res (statusCode res) (wire_etag w)
                        then 304 else statusCode res in
            if (code =? 204) || (code =? 304) then inl headersRemovedError
            else if code =? 205 then inl headersSentError
            else inr (mk code (sent res) (reqMethod res) (reqValidates res))
      | _ => inl headersSentError
      end
  end.

End Response.

(** The argument of a controller's constructor. *)
Record Invocation := mkInvocation {
  inv_data : JsValue;
  inv_auth : option AuthContext;
  inv_pathParams : gmap string string;
  inv_rawBody : option string;
  inv_headers : gmap string string
}.

(** A controller class: its static members, and [new c(args).execute()]. *)
Record Controller := mkController {
  isPublic : bool;
  scope : option string;
  successStatusCode : Z;
  execute : Invocation -> Thrown + JsValue
}.

(** The collaborators outside the file. *)
Class Env := {
  URL : Type;
  (** [new URL(text)]; throws a [TypeError] on an invalid URL. *)
  newURL : string -> Exn + URL;
  (** [JSON.parse(text)] *)
  JSON_parse : string -> Exn + JsValue;
  KeySet : Type;
  createRemoteJWKSet : URL -> KeySet;
  createLocalJWKSet : JsValue -> Exn + KeySet;
  (** [jwtVerify(token, keySet)]; [token] is [undefined] when the header
      has no second word. *)
  jwtVerify : option string -> KeySet -> Exn + JWTPayload;
  (** [openApiPathToExpressPath] of [./util.js], which is not part of the
      sources. *)
  openApiPathToExpressPath : string -> string;
  (** [(await import(path)).default]; [None] when the module has no
      default export. *)
  importDefault : string -> Exn + option Controller;
  (** What [router[method](path, handler)] throws when Express compiles
      the path pattern at registration and refuses it, if it does. *)
  routePattern : string -> option Exn
}.

(** Sequencing of steps that may throw. *)
Definition bindE {E A B : Type} (r : E + A) (k : A -> E + B) : E + B :=
  match r with
  | inl e => inl e
  | inr a => k a
  end.

Notation "x <-! r ;; k" := (bindE r (fun x => k))
  (at level 100, r at next level, right associativity).

(** A thrown non-[RestError] seen as a thrown value. *)
Definition liftE {A : Type} (r : Exn + A) : Thrown + A :=
  match r with
  | inl e => inl (ThrownOther e)
  | inr a => inr a
  end.

(** ** The handlers *)

Definition Handler : Type :=
  Request.t -> Response.t -> Thrown + (Request.t * Response.t).

Record AuthOptions := mkAuthOptions {
  opt_jwts : string;
  opt_scope : option string
}.

Section Handlers.

Context `{texts : RestErrorTexts} `{env : Env}.

(** The words of the [Authorization] header:
    [const [tokenType, token] = authorization.split(' ')]. *)
Definition tokenType (authorization : string) : option string :=
  Js.split " " authorization !! 0%nat.

Definition token (authorization : string) : option string :=
  Js.split " " authorization !! 1%nat.

(** The message of the [SyntaxError] that [JSON.parse(undefined)] throws
    on Node 22: the text [undefined] in double quotes, then
    [is not valid JSON]. *)
Definition undefinedIsNotJSON : string :=
  String "034" ("undefined" +:+ String "034" " is not valid JSON").

(** [JSON.parse(jwts)] where [jwts] is the variable that [let jwts;] has
    just declared: its value is [undefined], which [JSON.parse] converts
    to the text [undefined]; no JSON text starts with [u], so a
    [SyntaxError] is thrown. *)
Definition JSON_parse_undefined : Exn + JsValue :=
  inl (SyntaxError undefinedIsNotJSON).

(** Lines 22-27: the key set the verification uses. *)
Definition keySet (options : AuthOptions) : Exn + KeySet :=
  if Js.startsWith (opt_jwts options) "http" then
    url <-! newURL (opt_jwts options) ;;
    inr (createRemoteJWKSet url)
  else
    doc <-! JSON_parse_undefined ;;
    createLocalJWKSet doc.

(** Lines 22-28: key set, then [jwtVerify(token, jwts)]. *)
Definition verify (options : AuthOptions) (tok : option string) : Exn + JWTPayload :=
  jwts <-! keySet options ;;
  jwtVerify tok jwts.

(** Line 30: [payload.scope?.split(' ')]. *)
Definition scopesOf (payload : JWTPayload) : option (list string) :=
  Js.split " " <$> payload_scope payload.

(** Lines 31-35: [true] when the scope check throws. *)
Definition scopeDenied (required : option string) (scs : option (list string)) : bool :=
  match required with
  | Some s => Js.truthy s && negb (Js.includesO scs s)
  | None => false
  end.

(** Lines 37-46: the Auth Context, with the impersonation rule. *)
Definition authContext (req : Request.t) (payload : JWTPayload) : AuthContext :=
  let scs := scopesOf payload in
  let auth := mkAuth (payload_sub payload) (payload_name payload)
                     (payload_aud payload) scs in
  if Js.includesO scs "*:admin" then
    mkAuth (Js.or (Request.header req "x-personate-sub") (sub auth))
           (name auth) (aud auth) (scopes auth)
  else auth.

(** Lines 22-48: the body of the [try] block. *)
Definition tryBlock (options : AuthOptions) (tok : option string)
    (req : Request.t) (res : Response.t) : Thrown + (Request.t * Response.t) :=
  payload <-! liftE (verify options tok) ;;
  if scopeDenied (opt_scope options) (scopesOf payload) then
    inl (ThrownRest RestError.forbidden)
  else
    inr (Request.setAuth (authContext req payload) req, res).

(** Lines 49-54: the [catch] block. *)
Definition catchBlock {A : Type} (r : Thrown + A) : Thrown + A :=
  match r with
  | inl error =>
      if negb (instanceofRestError error)
      then inl (ThrownRest (RestError.unauthorized None))
      else inl error
  | inr a => inr a
  end.

Definition createAuthHandler (options : AuthOptions) : Handler :=
  fun req res =>
    match Request.headers req !! "authorization" with
    | None =>
        inl (ThrownRest (RestError.unauthorized (Some "Authorization header is required.")))
    | Some authorization =>
        if negb (Js.truthy authorization) then
          inl (ThrownRest (RestError.unauthorized (Some "Authorization header is required.")))
        else if negb (bool_decide (tokenType authorization = Some "Bearer")) then
          inl (ThrownRest (RestError.unauthorized (Some "Authorization token type is unsupported.")))
        else catchBlock (tryBlock options (token authorization) req res)
    end.

Definition invocationOf (req : Request.t) : Invocation :=
  mkInvocation (Request.body req) (Request.auth req) (Request.params req)
               (Request.rawBody req) (Request.headers req).

(** Lines 65-67. When [res.status] or [res.json] throws, the handler
    throws; the status it may have set by then is set again by
    [catchError]. *)
Definition createBizHandler (c : Controller) : Handler :=
  fun req res =>
    result <-! execute c (invocationOf req) ;;
    res1 <-! liftE (Response.status (successStatusCode c) res) ;;
    res2 <-! liftE (Response.json result res1) ;;
    inr (req, res2).

(** The status and the value that [catchError] answers an error with. *)
Definition errorStatus (err : Thrown) : Z :=
  match err with
  | ThrownRest e => RestError.statusCode e
  | ThrownOther _ => 500
  end.

Definition errorBody (err : Thrown) : JsValue :=
  match err with
  | ThrownRest e =>
      JObject [("error", JObject [("data", RestError.errorData e);
                                  ("message", JString (RestError.errorMessage e))])]
  | ThrownOther _ =>
      JObject [("error", JObject [("message", JString "Internal error.")])]
  end.

(** The Error Translator; what it logs is not part of the model. The
    result is the response as it leaves it, and the error it throws
    itself when [res.status] or [res.json] throws: no error-handling
    middleware of the router comes after it, so that error leaves the
    router. *)
Definition catchError (err : Thrown) (req : Request.t) (res : Response.t)
    : Response.t * option Exn :=
  match Response.status (errorStatus err) res with
  | inl e => (res, Some e)
  | inr res1 =>
      match Response.json (errorBody err) res1 with
      | inl e => (res1, Some e)
      | inr res2 => (res2, None)
      end
  end.

(** The handlers registered for one route run in order, each one calling
    [next()]; a thrown error goes to [catchError], registered last. The
    result is the response when the router is done with the request. *)
Fixpoint runHandlers (hs : list Handler) (req : Request.t) (res : Response.t) : Response.t :=
  match hs with
  | [] => res
  | h :: hs' =>
      match h req res with
      | inl err => fst (catchError err req res)
      | inr (req', res') => runHandlers hs' req' res'
      end
  end.

(** The error that leaves the router on the same run, if any. *)
Fixpoint routeError (hs : list Handler) (req : Request.t) (res : Response.t) : option Exn :=
  match hs with
  | [] => None
  | h :: hs' =>
      match h req res with
      | inl err => snd (catchError err req res)
      | inr (req', res') => routeError hs' req' res'
      end
  end.

End Handlers.

(** ** Router assembly *)

(** What [router[method](urlPath, handler)] registers. *)
Inductive LayerHandle :=
| AuthLayer (options : AuthOptions)
| BizLayer (c : Controller).

Record Layer := mkLayer {
  layer_method : string;
  layer_path : string;
  layer_handle : LayerHandle
}.

Record RouterOptions := mkRouterOptions {
  controllerDir : string;
  jwts : option string;
  defaultScope : option string
}.

Definition allowedMethods : list string := ["get"; "post"; "patch"].

Section Router.

Context `{texts : RestErrorTexts} `{env : Env}.

(** Lines 95-96: [parts.pop()?.replace('.js', '').toLowerCase()], and
    the segments that remain in [parts]. *)
Definition methodOf (controllerFile : string) : option string :=
  (fun segment => Js.toLowerCase (Js.replace ".js" "" segment))
    <$> fst (Js.pop (Js.split "/" controllerFile)).

Definition partsOf (controllerFile : string) : list string :=
  snd (Js.pop (Js.split "/" controllerFile)).

(** Line 100. *)
Definition urlPathOf (controllerFile : string) : string :=
  "/" +:+ Js.join "/" (openApiPathToExpressPath <$> partsOf controllerFile).

Definition invalidMethodError (controllerFile : string) : Exn :=
  Error ("The method is invalid for the file " +:+ controllerFile +:+ ".").

Definition jwtsRequiredError (urlPath method : string) : Exn :=
  Error ("A JWTS configuration is required since the controller "
         +:+ urlPath +:+ "/" +:+ method +:+ " is private.").

(** [router[method](urlPath, handler)]: Express compiles the pattern and
    appends a layer, or throws. *)
Definition register (method urlPath : string) (handle : LayerHandle) (router : list Layer)
    : Exn + list Layer :=
  match routePattern urlPath with
  | Some e => inl e
  | None => inr (router ++ [mkLayer method urlPath handle])
  end.

(** Lines 95-110: one turn of the loop over the controller files. An
    undefined [method] is not among the allowed ones. *)
Definition registerController (options : RouterOptions) (controllerFile : string)
    (router : list Layer) : Exn + list Layer :=
  match methodOf controllerFile with
  | Some method =>
      if negb (Js.includes allowedMethods method) then
        inl (invalidMethodError controllerFile)
      else
        let urlPath := urlPathOf controllerFile in
        imported <-! importDefault (controllerDir options +:+ "/" +:+ controllerFile) ;;
        match imported with
        | None => inl (TypeError "Cannot read properties of undefined (reading 'isPublic')")
        | Some c =>
            if negb (isPublic c) then
              match jwts options with
              | Some j =>
                  if negb (Js.truthy j) then inl (jwtsRequiredError urlPath method)
                  else
                    router1 <-! register method urlPath
                                  (AuthLayer (mkAuthOptions j (Js.or (scope c) (defaultScope options))))
                                  router ;;
                    register method urlPath (BizLayer c) router1
              | None => inl (jwtsRequiredError urlPath method)
              end
            else register method urlPath (BizLayer c) router
        end
  | None => inl (invalidMethodError controllerFile)
  end.

(** Lines 94-111: the loop, over the files [glob('**/*.js')] yields, in
    the order it yields them. *)
Fixpoint registerFiles (options : RouterOptions) (controllerFiles : list string)
    (router : list Layer) : Exn + list Layer :=
  match controllerFiles with
  | [] => inr router
  | controllerFile :: rest =>
      router' <-! registerController options controllerFile router ;;
      registerFiles options rest router'
  end.

(** The route table of the router that [createControllerRouter] returns,
    or the error that rejects its promise. The middleware that every
    request passes (CORS, body parsing, logging) is not in the table. *)
Definition createControllerRouter (options : RouterOptions) (controllerFiles : list string)
    : Exn + list Layer :=
  registerFiles options controllerFiles [].

Definition handlerOf (l : Layer) : Handler :=
  match layer_handle l with
  | AuthLayer options => createAuthHandler options
  | BizLayer c => createBizHandler c
  end.

Definition layerAt (method path : string) (l : Layer) : bool :=
  String.eqb (layer_method l) method && String.eqb (layer_path l) path.

(** The handlers registered for a method and a route path, in order. *)
Definition routeStack (router : list Layer) (method path : string) : list Handler :=
  handlerOf <$> List.filter (layerAt method path) router.

(** A request the router has matched to that route. *)
Definition serve (router : list Layer) (method path : string) (req : Request.t) : Response.t :=
  runHandlers (routeStack router method path) req Response.fresh.

Definition isBiz (l : Layer) : bool :=
  match layer_handle l with BizLayer _ => true | AuthLayer _ => false end.

(** The Route Descriptors of a table for one (method, path) pair: one
    per registered dispatch handler. *)
Definition descriptorsAt (router : list Layer) (method path : string) : list Layer :=
  List.filter (fun l => isBiz l && layerAt method path l) router.

End Router.

(** ** The specification's wording, where it is compared with the code *)

Module Spec.

(** The text without the suffix [suffix], when it ends with it. *)
Fixpoint stripSuffix (suffix s : string) : string :=
  if String.eqb s suffix then EmptyString
  else match s with
       | EmptyString => EmptyString
       | String c s' => String c (stripSuffix suffix s')
       end.

(** "The final segment, minus its module-file suffix, lowercased". *)
Definition methodOf (controllerFile : string) : option string :=
  (fun segment => Js.toLowerCase (stripSuffix ".js" segment))
    <$> last (Js.split "/" controllerFile).

(** "If the configured value starts with the scheme prefix http, treat
    it as a URL and use a remote key set; otherwise parse it as an
    inline JSON Web Key Set document." *)
Definition keySet `{env : Env} (options : AuthOptions) : Exn + KeySet :=
  if Js.startsWith (opt_jwts options) "http" then
    url <-! newURL (opt_jwts options) ;;
    inr (createRemoteJWKSet url)
  else
    doc <-! JSON_parse (opt_jwts options) ;;
    createLocalJWKSet doc.

(** "Allow if requiredScope is unset, or if it is present in the scope
    sequence." *)
Definition scopeAllowed (requiredScope : option string) (scs : option (list string)) : Prop :=
  match requiredScope with
  | None => True
  | Some s => exists l, scs = Some l /\ s ∈ l
  end.

End Spec.

(** ** A small deployment, used to run the definitions *)

Module Demo.

Definition texts : RestErrorTexts :=
  {| unauthorizedText := "Unauthorized"; forbiddenText := "Forbidden" |}.

Inductive keys :=
| RemoteKeys (url : string)
| LocalKeys (doc : JsValue).

Definition adminPayload : JWTPayload :=
  mkPayload (Some "root") (Some "Root") (Some "api") (Some "*:admin read:users").

Definition readerPayload : JWTPayload :=
  mkPayload (Some "alice") (Some "Alice") (Some "api") (Some "read:users write:users").

Definition writerPayload : JWTPayload :=
  mkPayload (Some "bob") (Some "Bob") (Some "api") (Some "write:users").

(** Three tokens are signed by the keys; everything else is rejected. *)
Definition verifyToken (tok : option string) (_ : keys) : Exn + JWTPayload :=
  if bool_decide (tok = Some "admin-token") then inr adminPayload
  else if bool_decide (tok = Some "reader-token") then inr readerPayload
  else if bool_decide (tok = Some "writer-token") then inr writerPayload
  else inl (mkExn "JWSInvalid" "Invalid Compact JWS").

Definition quote : string := String "034" EmptyString.

(** The inline key set document: an object with an empty [keys] array. *)
Definition inlineJwks : string :=
  "{" +:+ quote +:+ "keys" +:+ quote +:+ ":[]}".

Definition parse (text : string) : Exn + JsValue :=
  if String.eqb text inlineJwks then inr (JObject [("keys", JArray [])])
  else inl (SyntaxError "Unexpected token in JSON").

Definition parseURL (text : string) : Exn + string :=
  if Js.startsWith text "http://" || Js.startsWith text "https://" then inr text
  else inl (TypeError "Invalid URL").

(** Modelled from the spec: [openApiPathToExpressPath] of [./util.js],
    which is not part of the sources: "converted from an OpenAPI-style
    brace parameter syntax ({id}) to the target router's parameter
    syntax (:id)". *)
Definition braceToColon (segment : string) : string :=
  match segment with
  | String "{" inner =>
      if Js.endsWith inner "}" then ":" +:+ Spec.stripSuffix "}" inner else segment
  | _ => segment
  end.

(** The path patterns with a parenthesis are refused, the others
    accepted. *)
Definition refuseParenthesis (path : string) : option Exn :=
  if hasChar "(" path then Some (TypeError ("Unexpected ( in " +:+ path)) else None.

Definition userName : JsValue := JObject [("name", JString "a")].

Definition listUsers : Controller :=
  mkController true None 200 (fun _ => inr (JArray [userName])).

Definition getUser : Controller :=
  mkController false (Some "read:users") 200 (fun _ => inr userName).

Definition createUser : Controller :=
  mkController false None 201
    (fun inv => match inv_auth inv with
                | Some ctx => inr (JObject [("owner", from_option JString JNull (sub ctx))])
                | None => inl (ThrownOther (TypeError "Cannot read properties of undefined (reading 'sub')"))
                end).

Definition failing : Controller :=
  mkController true None 200 (fun _ => inl (ThrownOther (Error "database is down"))).



(** The response object of a HEAD request. *)
Definition headResponse : Response.t := Response.mk 200 None "HEAD" (fun _ => false).

Definition dir : string := "/srv/dist/controllers/".

Definition modules : list (string * Controller) :=
  [ ("/srv/dist/controllers//users/get.js", listUsers);
    ("/srv/dist/controllers//users/GET.js", listUsers);
    ("/srv/dist/controllers//users/{id}/get.js", getUser);
    ("/srv/dist/controllers//users/post.js", createUser);
    ("/srv/dist/controllers//health/get.js", failing);
    ("/srv/dist/controllers//users/delete.js", listUsers);
    ("/srv/dist/controllers//a(b/get.js", listUsers) ].

Fixpoint lookupModule (table : list (string * Controller)) (path : string) : Exn + option Controller :=
  match table with
  | [] => inl (mkExn "Error" "Cannot find module")
  | (p, c) :: table' => if String.eqb p path then inr (Some c) else lookupModule table' path
  end.

Definition env : Env :=
  {| URL := string;
     newURL := parseURL;
     JSON_parse := parse;
     KeySet := keys;
     createRemoteJWKSet := RemoteKeys;
     createLocalJWKSet := fun doc => inr (LocalKeys doc);
     jwtVerify := verifyToken;
     openApiPathToExpressPath := braceToColon;
     importDefault := lookupModule modules;
     routePattern := refuseParenthesis |}.

Definition issuer : string := "https://issuer.example/jwks.json".

Definition remote : AuthOptions := mkAuthOptions issuer (Some "read:users").

Definition inline : AuthOptions := mkAuthOptions inlineJwks None.

Definition request (hs : list (string * string)) : Request.t :=
  Request.mk (list_to_map hs) JNull ∅ None None.

(** The same key source, with the empty text as required scope. *)
Definition emptyScope : AuthOptions := mkAuthOptions issuer (Some "").

Definition anonymous : Request.t := request [].

Definition reader : Request.t := request [("authorization", "Bearer reader-token")].

Definition writer : Request.t := request [("authorization", "Bearer writer-token")].

Definition forged : Request.t := request [("authorization", "Bearer forged-token")].

(** An administrator's token, with the impersonation header. *)
Definition adminAs (subject : string) : Request.t :=
  request [("authorization", "Bearer admin-token"); ("x-personate-sub", subject)].

(** Router options with and without a JWTS configuration. *)
Definition secured : RouterOptions := mkRouterOptions dir (Some issuer) None.

Definition unsecured : RouterOptions := mkRouterOptions dir None None.

End Demo.

(** ** The notions the properties are stated with *)

(** The request carries a non-empty [Authorization] header whose first
    word is [Bearer]. *)
Definition bearer (req : Request.t) (authorization : string) : Prop :=
  Request.headers req !! "authorization" = Some authorization
  /\ authorization <> ""
  /\ tokenType authorization = Some "Bearer".

(** The scope sequence of the verified token contains the scope. *)
Definition tokenHasScope (payload : JWTPayload) (s : string) : Prop :=
  exists l, scopesOf payload = Some l /\ s ∈ l.

(** [Throws hs req res err req' res']: running the handlers [hs] from
    [req] and [res], one of them throws [err] when the request and the
    response have become [req'] and [res']. *)
Inductive Throws : list Handler -> Request.t -> Response.t ->
                   Thrown -> Request.t -> Response.t -> Prop :=
| Throws_here h hs req res err :
    h req res = inl err ->
    Throws (h :: hs) req res err req res
| Throws_later h hs req res req1 res1 err req' res' :
    h req res = inr (req1, res1) ->
    Throws hs req1 res1 err req' res' ->
    Throws (h :: hs) req res err req' res'.

(** The controller file resolves to the route (method, path). *)
Definition resolvesTo `{env : Env} (method path controllerFile : string) : bool :=
  bool_decide (methodOf controllerFile = Some method)
  && String.eqb (urlPathOf controllerFile) path.

(** Two outcomes of the authentication handler that a client and the
    next handler cannot tell apart: the same error, or the same Auth
    Context and response. *)
Definition sameOutcome (r1 r2 : Thrown + (Request.t * Response.t)) : Prop :=
  match r1, r2 with
  | inl e1, inl e2 => e1 = e2
  | inr (q1, s1), inr (q2, s2) => Request.auth q1 = Request.auth q2 /\ s1 = s2
  | _, _ => False
  end.

(** The controller file passes the checks of one turn of the loop: an
    allowed method, a module with a default export, a JWTS configuration
    when the controller is private, and a path pattern that Express
    accepts. *)
Definition passes `{env : Env} (options : RouterOptions) (controllerFile : string) : Prop :=
  exists m c,
    methodOf controllerFile = Some m
    /\ m ∈ allowedMethods
    /\ importDefault (controllerDir options +:+ "/" +:+ controllerFile) = inr (Some c)
    /\ (isPublic c = true \/ exists j, jwts options = Some j /\ j <> "")
    /\ routePattern (urlPathOf controllerFile) = None.

(** [Gated options router]: the table is a sequence of blocks, each one
    the dispatch layer of a public controller, or the dispatch layer of a
    private controller right after an authentication layer for the same
    method and path, bound to the configured [jwts] and to the scope
    [c.scope || defaultScope]. *)
Inductive Gated (options : RouterOptions) : list Layer -> Prop :=
| Gated_nil : Gated options []
| Gated_public m p c rest :
    isPublic c = true ->
    Gated options rest ->
    Gated options (mkLayer m p (BizLayer c) :: rest)
| Gated_private m p c j rest :
    isPublic c = false ->
    jwts options = Some j ->
    j <> "" ->
    Gated options rest ->
    Gated options
      (mkLayer m p (AuthLayer (mkAuthOptions j (Js.or (scope c) (defaultScope options))))
         :: mkLayer m p (BizLayer c) :: rest).

(** ** The application bootstrap *)

(** The process and the file system, as [registerControllers] and the
    [glob] call of [createControllerRouter] see them. *)
Class Host := {
  (** [existsSync(path)] *)
  existsSync : string -> bool;
  (** [process.cwd()] *)
  cwd : string;
  (** [glob(pattern, { cwd })], as the list of paths it yields. *)
  glob : string -> string -> list string
}.

(** What [app.use] has mounted on the application, in order. *)
Inductive Mount :=
| TraceHandler
| RouterAt (prefix : string) (router : list Layer).

Record RegisterOptions := mkRegisterOptions {
  reg_jwts : option string;
  reg_scope : option string
}.

(** Lines 143-158. The application is the object of [./app.js]; the
    function mutates it, so the result holds the application as it is
    when the promise settles, and the error if the promise rejects. *)
Definition registerControllers `{env : Env} `{host : Host} (options : RegisterOptions)
    (app : list Mount) : list Mount * option Exn :=
  let app1 := app ++ [TraceHandler] in
  if existsSync "dist/controllers" then
    let dir := cwd +:+ "/dist/controllers/" in
    match createControllerRouter
            (mkRouterOptions dir (reg_jwts options) (reg_scope options))
            (glob "**/*.js" dir) with
    | inl e => (app1, Some e)
    | inr router => (app1 ++ [RouterAt "/rest" router], None)
    end
  else (app1, None).

Module DemoHost.

(** A project whose controllers are compiled under [/srv]. *)
Definition compiled : Host :=
  {| existsSync := fun path => String.eqb path "dist/controllers";
     cwd := "/srv";
     glob := fun _ _ => ["users/get.js"; "users/{id}/get.js"; "users/post.js"] |}.

(** A project that has not been compiled. *)
Definition bare : Host :=
  {| existsSync := fun _ => false;
     cwd := "/srv";
     glob := fun _ _ => [] |}.

End DemoHost.

(** ** The definitions at work *)

Example split_bearer : Js.split " " "Bearer abc" = ["Bearer"; "abc"].
Proof. reflexivity. Qed.

Example split_double_space : Js.split " " "a  b" = ["a"; ""; "b"].
Proof. reflexivity. Qed.

Example split_empty : Js.split " " "" = [""].
Proof. reflexivity. Qed.

Example replace_first_only : Js.replace ".js" "" "a.js.js" = "a.js".
Proof. reflexivity. Qed.

Example lower_method : Js.toLowerCase (Js.replace ".js" "" "GET.js") = "get".
Proof. reflexivity. Qed.

Example lower_upper_suffix : Js.toLowerCase (Js.replace ".js" "" "GET.JS") = "get.js".
Proof. reflexivity. Qed.

Example pop_parts : Js.pop (Js.split "/" "users/{id}/get.js") = (Some "get.js", ["users"; "{id}"]).
Proof. reflexivity. Qed.

Example includes_scope : Js.includes ["read:users"; "write:users"] "read:users" = true.
Proof. reflexivity. Qed.

Example spec_method_upper : Spec.methodOf "users/GET.js" = Some "get".
Proof. reflexivity. Qed.

Example demo_path : Demo.braceToColon "{id}" = ":id".
Proof. reflexivity. Qed.

Example demo_reader_passes :
  exists req', createAuthHandler (texts := Demo.texts) (env := Demo.env) Demo.remote
      (Demo.request [("authorization", "Bearer reader-token")]) Response.fresh
    = inr (req', Response.fresh)
    /\ Request.auth req' = Some (mkAuth (Some "alice") (Some "Alice") (Some "api")
                                        (Some ["read:users"; "write:users"])).
Proof. eexists. split; vm_compute; reflexivity. Qed.

Example demo_writer_forbidden :
  serve (texts := Demo.texts) (env := Demo.env)
    [mkLayer "get" "/users/:id" (AuthLayer Demo.remote);
     mkLayer "get" "/users/:id" (BizLayer Demo.getUser)]
    "get" "/users/:id" (Demo.request [("authorization", "Bearer writer-token")])
  = Response.mk 403
      (Some (Response.mkWire 403 (Some (errorBody (ThrownRest (@RestError.forbidden Demo.texts))))
                             (Some (errorBody (ThrownRest (@RestError.forbidden Demo.texts))))))
      "GET" (fun _ => false).
Proof. vm_compute. reflexivity. Qed.

Example demo_status_out_of_range :
  Response.status 1000 Response.fresh
  = inl (RangeError "Invalid status code: 1000. Status code must be greater than 99 and less than 1000.").
Proof. vm_compute. reflexivity. Qed.

Example demo_second_write_throws :
  (res1 <-! Response.json (JString "first") Response.fresh ;;
   Response.json (JString "second") res1)
  = inl headersSentError.
Proof. reflexivity. Qed.

Example demo_no_content :
  (res1 <-! Response.status 204 Response.fresh ;; Response.json (JString "body") res1)
  = inr (Response.mk 204 (Some (Response.mkWire 204 None (Some (JString "body"))))
                     "GET" (fun _ => false)).
Proof. reflexivity. Qed.

Example demo_router :
  createControllerRouter (env := Demo.env)
    Demo.secured
    ["users/get.js"; "users/{id}/get.js"]
  = inr [mkLayer "get" "/users" (BizLayer Demo.listUsers);
         mkLayer "get" "/users/:id" (AuthLayer Demo.remote);
         mkLayer "get" "/users/:id" (BizLayer Demo.getUser)].
Proof. vm_compute. reflexivity. Qed.

(** ** Facts about the string primitives *)

Lemma append_cons (c : ascii) (s t : string) :
  String c s +:+ t = String c (s +:+ t).
Proof. reflexivity. Qed.

Lemma append_empty_l (t : string) : "" +:+ t = t.
Proof. reflexivity. Qed.

Lemma prefix_drop (p s : string) :
  String.prefix p s = true -> s = p +:+ Js.drop (String.length p) s.
Proof.
  revert s. induction p as [|a p IH]; intros s Hp.
  - reflexivity.
  - destruct s as [|b s]; simpl in Hp; [discriminate|].
    destruct (ascii_dec a b) as [->|]; [|discriminate].
    rewrite append_cons. simpl. f_equal. apply IH, Hp.
Qed.

Lemma lowerChar_dot (c : ascii) :
  Ascii.eqb (Js.lowerChar c) "." = Ascii.eqb c ".".
Proof. destruct c as [[] [] [] [] [] [] [] []]; reflexivity. Qed.

Lemma hasChar_dot_toLowerCase (s : string) :
  hasChar "." (Js.toLowerCase s) = hasChar "." s.
Proof.
  induction s as [|c s IH]; [reflexivity|].
  simpl. rewrite lowerChar_dot, IH. reflexivity.
Qed.

Lemma endsWith_js_hasChar (s : string) :
  Js.endsWith s ".js" = true -> hasChar "." s = true.
Proof.
  induction s as [|c s IH]; [intros; discriminate|].
  cbn [Js.endsWith hasChar].
  destruct (String.eqb_spec (String c s) ".js") as [E|_].
  - inversion E; subst. reflexivity.
  - intros H. rewrite (IH H). apply orb_true_r.
Qed.

(** On a text that ends with [.js], removing the first [.js] removes the
    suffix, unless a dot is left in the result. *)
Lemma replace_js_is_stripSuffix (s : string) :
  Js.endsWith s ".js" = true ->
  hasChar "." (Js.replace ".js" "" s) = false ->
  Js.replace ".js" "" s = Spec.stripSuffix ".js" s.
Proof.
  induction s as [|c s IH]; [intros; discriminate|].
  intros Hend Hdot.
  cbn [Js.endsWith Spec.stripSuffix] in *.
  destruct (String.eqb_spec (String c s) ".js") as [E|NE].
  - rewrite E. reflexivity.
  - cbn [Js.replace] in *.
    destruct (String.prefix ".js" (String c s)) eqn:Hp.
    + exfalso. apply prefix_drop in Hp.
      revert Hp Hdot. generalize (Js.drop (String.length ".js") (String c s)) as r.
      intros r Hp. rewrite append_empty_l. intros Hdot.
      inversion Hp as [[Hc Hs]]. subst s.
      destruct r as [|r0 r]; [exfalso; apply NE; rewrite Hc; reflexivity|].
      assert (Js.endsWith (String r0 r) ".js" = true) as Hr by exact Hend.
      apply endsWith_js_hasChar in Hr. congruence.
    + simpl in Hdot. apply orb_false_elim in Hdot as [_ Hdot].
      f_equal. apply IH; assumption.
Qed.

Lemma split_nonempty (sep : ascii) (s : string) : Js.split sep s <> [].
Proof.
  induction s as [|c s IH]; simpl; [discriminate|].
  destruct (Ascii.eqb c sep); [discriminate|].
  destruct (Js.split sep s); discriminate.
Qed.

(** A path that ends with [.js] has a final segment that ends with it. *)
Lemma endsWith_last_segment (f : string) :
  Js.endsWith f ".js" = true ->
  exists segment, last (Js.split "/" f) = Some segment /\ Js.endsWith segment ".js" = true.
Proof.
  induction f as [|c f IH]; [intros; discriminate|].
  cbn [Js.endsWith].
  destruct (String.eqb_spec (String c f) ".js") as [E|NE].
  - intros _. rewrite E. exists ".js". split; reflexivity.
  - intros H. destruct (IH H) as (seg & Hlast & Hseg).
    cbn [Js.split]. destruct (Ascii.eqb c "/").
    + exists seg. split; [|exact Hseg].
      destruct (Js.split "/" f) eqn:Es; [discriminate|]. exact Hlast.
    + destruct (Js.split "/" f) as [|w ws] eqn:Es; [discriminate|].
      destruct ws as [|w' ws].
      * simpl in Hlast. injection Hlast as ->. exists (String c seg). split; [reflexivity|].
        cbn [Js.endsWith]. rewrite Hseg. destruct (String.eqb _ _); reflexivity.
      * exists seg. split; [exact Hlast | exact Hseg].
Qed.

Lemma allowed_has_no_dot (m : string) :
  m ∈ allowedMethods -> hasChar "." m = false.
Proof.
  unfold allowedMethods. rewrite !elem_of_cons, elem_of_nil.
  intros [->|[->|[->|[]]]]; reflexivity.
Qed.

Lemma includes_true (l : list string) (x : string) :
  Js.includes l x = true <-> x ∈ l.
Proof. unfold Js.includes. apply bool_decide_eq_true. Qed.

Lemma includes_false (l : list string) (x : string) :
  Js.includes l x = false <-> x ∉ l.
Proof. unfold Js.includes. apply bool_decide_eq_false. Qed.

Lemma truthy_true (s : string) : Js.truthy s = true <-> s <> "".
Proof.
  unfold Js.truthy. destruct (String.eqb_spec s ""); simpl; split; congruence.
Qed.

Lemma truthy_false (s : string) : Js.truthy s = false <-> s = "".
Proof.
  unfold Js.truthy. destruct (String.eqb_spec s ""); simpl; split; congruence.
Qed.

(** ** The response object and the error translator *)

Lemma status_in_range (code : Z) (res : Response.t) :
  100 <= code <= 999 ->
  Response.status code res
  = inr (Response.mk code (Response.sent res) (Response.reqMethod res)
                     (Response.reqValidates res)).
Proof.
  intros [Hlo Hhi]. unfold Response.status.
  apply Z.leb_le in Hlo, Hhi. rewrite Hlo, Hhi. reflexivity.
Qed.

Lemma status_out_of_range (code : Z) (res : Response.t) :
  ~ 100 <= code <= 999 ->
  exists e, Response.status code res = inl e /\ exnName e = "RangeError".
Proof.
  intros Hout. unfold Response.status.
  destruct ((100 <=? code) && (code <=? 999)) eqn:E.
  - exfalso. apply Hout. apply andb_true_iff in E as [Hlo Hhi].
    apply Z.leb_le in Hlo, Hhi. split; assumption.
  - eexists. split; reflexivity.
Qed.

(** The status of an error answer is never turned into 304. *)
Lemma reqFresh_error (res : Response.t) (code : Z) (etag : option JsValue) :
  400 <= code -> Response.reqFresh res code etag = false.
Proof.
  intros H. unfold Response.reqFresh.
  assert ((200 <=? code) && (code <? 300) || (code =? 304) = false) as ->.
  { apply orb_false_iff. split; [apply andb_false_iff; right; apply Z.ltb_ge; lia|].
    apply Z.eqb_neq. lia. }
  rewrite andb_false_r. reflexivity.
Qed.


Lemma bodiless_false (code : Z) :
  200 <= code -> code <> 204 -> code <> 205 -> code <> 304 ->
  Response.bodiless code = false.
Proof.
  intros H1 H2 H3 H4. unfold Response.bodiless.
  repeat (apply orb_false_iff; split);
    first [apply Z.ltb_ge; lia | apply Z.eqb_neq; assumption].
Qed.

(** [res.status(code).json(value)] on a response that has not been sent,
    with a valid code that the request does not turn into 304. *)
Lemma respond_unsent (code : Z) (value : JsValue) (res : Response.t) :
  100 <= code <= 999 ->
  Response.sent res = None ->
  Response.reqFresh res code (Response.etagSource value) = false ->
  (res1 <-! Response.status code res ;; Response.json value res1)
  = inr (Response.mk code
           (Some (Response.mkWire code
                    (if Response.bodiless code || String.eqb (Response.reqMethod res) "HEAD"
                     then None else Some value)
                    (Response.etagSource value)))
           (Response.reqMethod res) (Response.reqValidates res)).
Proof.
  intros Hr Hs Hf. rewrite (status_in_range _ _ Hr). cbn [bindE].
  unfold Response.json. cbn [Response.sent Response.statusCode Response.reqMethod].
  rewrite Hs.
  assert (Response.reqFresh
            (Response.mk code None (Response.reqMethod res) (Response.reqValidates res))
            code (Response.etagSource value) = false) as ->.
  { exact Hf. }
  reflexivity.
Qed.

(** A value other than [undefined] cannot be written to a response that
    has been sent. *)
Lemma json_sent (value : JsValue) (res : Response.t) (w : Response.Wire) :
  Response.sent res = Some w ->
  value <> JUndefined ->
  Response.json value res = inl headersSentError.
Proof.
  intros Hs Hv. unfold Response.json. rewrite Hs. destruct value; congruence.
Qed.

Lemma errorBody_defined (err : Thrown) : errorBody err <> JUndefined.
Proof. destruct err; discriminate. Qed.

(** The error translator on a response that has not been sent, for an
    error status in 400..999. *)
Lemma catchError_unsent (err : Thrown) (req : Request.t) (res : Response.t) :
  400 <= errorStatus err <= 999 ->
  Response.sent res = None ->
  catchError err req res
  = (Response.mk (errorStatus err)
       (Some (Response.mkWire (errorStatus err)
                (if Response.bodiless (errorStatus err)
                    || String.eqb (Response.reqMethod res) "HEAD"
                 then None else Some (errorBody err))
                (Response.etagSource (errorBody err))))
       (Response.reqMethod res) (Response.reqValidates res), None).
Proof.
  intros Hr Hs.
  pose proof (respond_unsent (errorStatus err) (errorBody err) res) as H.
  unfold catchError. rewrite status_in_range in * by lia. cbn [bindE] in H.
  rewrite H; [reflexivity | lia | exact Hs | apply reqFresh_error; lia].
Qed.

(** The error translator on a response that has been sent: its write
    throws, and what the client has received stays. *)
Lemma catchError_sent (err : Thrown) (req : Request.t) (res : Response.t)
    (w : Response.Wire) :
  100 <= errorStatus err <= 999 ->
  Response.sent res = Some w ->
  catchError err req res
  = (Response.mk (errorStatus err) (Some w) (Response.reqMethod res)
                 (Response.reqValidates res),
     Some headersSentError).
Proof.
  intros Hr Hs. unfold catchError. rewrite (status_in_range _ _ Hr).
  rewrite (json_sent _ _ w); [rewrite Hs; reflexivity | exact Hs | apply errorBody_defined].
Qed.

(** In both cases [res.statusCode] is the status of the error. *)
Lemma catchError_statusCode (err : Thrown) (req : Request.t) (res : Response.t) :
  400 <= errorStatus err <= 999 ->
  Response.statusCode (fst (catchError err req res)) = errorStatus err.
Proof.
  intros Hr. destruct (Response.sent res) as [w|] eqn:Hs.
  - rewrite (catchError_sent _ _ _ w); [reflexivity | lia | exact Hs].
  - rewrite catchError_unsent; [reflexivity | exact Hr | exact Hs].
Qed.

(** ** The authentication handler *)

Section AuthFacts.

Context `{texts : RestErrorTexts} `{env : Env}.

Lemma includesO_true (scs : option (list string)) (s : string) :
  Js.includesO scs s = true <-> exists l, scs = Some l /\ s ∈ l.
Proof.
  destruct scs as [l|]; simpl.
  - rewrite includes_true. split; [eauto|]. intros (l' & [= <-] & H). exact H.
  - split; [discriminate|]. intros (l & H & _). discriminate.
Qed.

Lemma scopeDenied_true (required : option string) (payload : JWTPayload) :
  scopeDenied required (scopesOf payload) = true <->
  exists s, required = Some s /\ s <> "" /\ ~ tokenHasScope payload s.
Proof.
  unfold scopeDenied, tokenHasScope. destruct required as [s|].
  - rewrite andb_true_iff, truthy_true, negb_true_iff, <- not_true_iff_false, includesO_true.
    split.
    + intros [? ?]. eauto.
    + intros (s' & [= <-] & ? & ?). auto.
  - split; [discriminate|]. intros (s & H & _). discriminate.
Qed.

Lemma scopeDenied_false (required : option string) (payload : JWTPayload) :
  scopeDenied required (scopesOf payload) = false <->
  required = None \/ required = Some "" \/ exists s, required = Some s /\ tokenHasScope payload s.
Proof.
  unfold scopeDenied, tokenHasScope. destruct required as [s|].
  - rewrite andb_false_iff, truthy_false, negb_false_iff, includesO_true. split.
    + intros [->|H]; [auto|]. right. right. eauto.
    + intros [H|[[= ->]|(s' & [= <-] & H)]]; [discriminate|auto|auto].
  - split; auto.
Qed.

(** Past the two header checks, the handler is its [try]/[catch]. *)
Lemma createAuthHandler_bearer (options : AuthOptions) (req : Request.t) (res : Response.t)
    (a : string) :
  bearer req a ->
  createAuthHandler options req res = catchBlock (tryBlock options (token a) req res).
Proof.
  intros (Hh & Hne & Hty). unfold createAuthHandler. rewrite Hh.
  apply truthy_true in Hne. rewrite Hne. simpl.
  rewrite (bool_decide_eq_true_2 _ Hty). reflexivity.
Qed.

Lemma tryBlock_verified (options : AuthOptions) (tok : option string) (req : Request.t)
    (res : Response.t) (payload : JWTPayload) :
  verify options tok = inr payload ->
  tryBlock options tok req res =
    if scopeDenied (opt_scope options) (scopesOf payload)
    then inl (ThrownRest RestError.forbidden)
    else inr (Request.setAuth (authContext req payload) req, res).
Proof. intros H. unfold tryBlock. rewrite H. reflexivity. Qed.

Lemma tryBlock_unverified (options : AuthOptions) (tok : option string) (req : Request.t)
    (res : Response.t) (e : Exn) :
  verify options tok = inl e ->
  tryBlock options tok req res = inl (ThrownOther e).
Proof. intros H. unfold tryBlock. rewrite H. reflexivity. Qed.

(** A handler that throws a [RestError] ends the request with the status
    of that error. *)
Lemma runHandlers_rest_error (h : Handler) (rest : list Handler) (req : Request.t)
    (res : Response.t) (e : RestError.t) :
  h req res = inl (ThrownRest e) ->
  400 <= RestError.statusCode e <= 999 ->
  Response.statusCode (runHandlers (h :: rest) req res) = RestError.statusCode e.
Proof.
  intros H Hr. cbn [runHandlers]. rewrite H.
  apply (catchError_statusCode (ThrownRest e)). exact Hr.
Qed.

(** And with that status on the wire, when nothing had been sent. *)
Lemma runHandlers_rest_error_sent (h : Handler) (rest : list Handler) (req : Request.t)
    (res : Response.t) (e : RestError.t) :
  h req res = inl (ThrownRest e) ->
  400 <= RestError.statusCode e <= 999 ->
  Response.sent res = None ->
  Response.sentStatus (runHandlers (h :: rest) req res) = Some (RestError.statusCode e).
Proof.
  intros H Hr Hs. cbn [runHandlers]. rewrite H.
  rewrite (catchError_unsent (ThrownRest e)); [reflexivity | exact Hr | exact Hs].
Qed.

(** C1. A request to a private route whose [Authorization] header is
    absent, or whose scheme is not [Bearer], or whose token fails
    verification, makes the authentication handler throw an Unauthorized
    error, and the response has status 401. *)
Theorem auth_failure_unauthorized (options : AuthOptions) (req : Request.t) (res : Response.t) :
  Request.headers req !! "authorization" = None
  \/ (exists a, Request.headers req !! "authorization" = Some a
                /\ tokenType a <> Some "Bearer")
  \/ (exists a e, Request.headers req !! "authorization" = Some a
                  /\ verify options (token a) = inl e) ->
  exists message,
    createAuthHandler options req res = inl (ThrownRest (RestError.unauthorized message))
    /\ RestError.statusCode (RestError.unauthorized message) = 401
    /\ forall rest,
         Response.statusCode (runHandlers (createAuthHandler options :: rest) req res) = 401
         /\ (Response.sent res = None ->
             Response.sentStatus (runHandlers (createAuthHandler options :: rest) req res)
             = Some 401).
Proof.
  intros H.
  assert (exists message,
    createAuthHandler options req res = inl (ThrownRest (RestError.unauthorized message)))
    as [message Hm].
  { unfold createAuthHandler.
    destruct H as [->|[(a & -> & Hty)|(a & e & -> & Hv)]]; [eauto| |].
    - destruct (Js.truthy a); simpl; [|eauto].
      rewrite (bool_decide_eq_false_2 _ Hty). simpl. eauto.
    - destruct (Js.truthy a); simpl; [|eauto].
      destruct (bool_decide _); simpl; [|eauto].
      rewrite (tryBlock_unverified _ _ _ _ _ Hv). simpl. eauto. }
  exists message. split; [exact Hm|]. split; [reflexivity|].
  intros rest. split.
  - rewrite (runHandlers_rest_error _ _ _ _ _ Hm) by (cbn; lia). reflexivity.
  - intros Hsent. rewrite (runHandlers_rest_error_sent _ _ _ _ _ Hm) by (cbn; lia || exact Hsent).
    reflexivity.
Qed.

(** C2, amended. When the token is verified and passes the scope check,
    the handler attaches an Auth Context whose subject is the value of the
    [x-personate-sub] header if the token has the scope [*:admin] and the
    header is present and not empty; the token's own [sub] claim if the
    token has [*:admin] and the header is absent or empty; and the token's
    own [sub] claim whenever the token lacks [*:admin]. *)
Theorem impersonation_subject (options : AuthOptions) (req : Request.t) (res : Response.t)
    (a : string) (payload : JWTPayload) :
  bearer req a ->
  verify options (token a) = inr payload ->
  scopeDenied (opt_scope options) (scopesOf payload) = false ->
  exists ctx,
    createAuthHandler options req res = inr (Request.setAuth ctx req, res)
    /\ (tokenHasScope payload "*:admin" ->
        forall X, Request.header req "x-personate-sub" = Some X -> X <> "" ->
                  sub ctx = Some X)
    /\ (tokenHasScope payload "*:admin" ->
        Request.header req "x-personate-sub" = None
        \/ Request.header req "x-personate-sub" = Some "" ->
        sub ctx = payload_sub payload)
    /\ (~ tokenHasScope payload "*:admin" -> sub ctx = payload_sub payload).
Proof.
  intros Hb Hv Hs. exists (authContext req payload).
  split.
  { rewrite (createAuthHandler_bearer _ _ _ _ Hb), (tryBlock_verified _ _ _ _ _ Hv), Hs.
    reflexivity. }
  unfold authContext, tokenHasScope.
  destruct (Js.includesO (scopesOf payload) "*:admin") eqn:Hadm.
  - split; [|split].
    + intros _ X HX Hne. simpl. rewrite HX. unfold Js.or. simpl.
      apply truthy_true in Hne. rewrite Hne. reflexivity.
    + intros _ [HX|HX]; simpl; rewrite HX; reflexivity.
    + intros Hno. exfalso. apply Hno, includesO_true, Hadm.
  - split; [|split].
    + intros Hyes. apply includesO_true in Hyes. congruence.
    + intros Hyes. apply includesO_true in Hyes. congruence.
    + intros _. reflexivity.
Qed.

(** C3, the part the code breaks. When the configured [jwts] value does
    not start with [http], the key set is never built from it: the
    [JSON.parse] call reads an undefined variable and throws, so every
    request with a Bearer token is rejected as Unauthorized, whatever the
    configured document and whatever [jwtVerify] would answer. *)
Theorem inline_jwts_never_parsed (options : AuthOptions) (req : Request.t) (res : Response.t)
    (a : string) :
  Js.startsWith (opt_jwts options) "http" = false ->
  bearer req a ->
  keySet options = inl (SyntaxError undefinedIsNotJSON)
  /\ createAuthHandler options req res = inl (ThrownRest (RestError.unauthorized None))
  /\ forall rest,
       Response.statusCode (runHandlers (createAuthHandler options :: rest) req res) = 401
       /\ (Response.sent res = None ->
           Response.sentStatus (runHandlers (createAuthHandler options :: rest) req res)
           = Some 401).
Proof.
  intros Hp Hb.
  assert (keySet options = inl (SyntaxError undefinedIsNotJSON)) as Hk.
  { unfold keySet. rewrite Hp. reflexivity. }
  assert (createAuthHandler options req res = inl (ThrownRest (RestError.unauthorized None))) as Hh.
  { rewrite (createAuthHandler_bearer _ _ _ _ Hb).
    rewrite (tryBlock_unverified _ _ _ _ (SyntaxError undefinedIsNotJSON)).
    - reflexivity.
    - unfold verify. rewrite Hk. reflexivity. }
  split; [exact Hk|]. split; [exact Hh|].
  intros rest. split.
  - rewrite (runHandlers_rest_error _ _ _ _ _ Hh) by (cbn; lia). reflexivity.
  - intros Hsent. rewrite (runHandlers_rest_error_sent _ _ _ _ _ Hh) by (cbn; lia || exact Hsent).
    reflexivity.
Qed.

(** With the prefix [http] the code does what the specification says: the
    key set is the remote one, built from the configured value as a URL. *)
Lemma keySet_remote (options : AuthOptions) :
  Js.startsWith (opt_jwts options) "http" = true ->
  keySet options = Spec.keySet options
  /\ keySet options = (url <-! newURL (opt_jwts options) ;; inr (createRemoteJWKSet url)).
Proof. intros H. unfold keySet, Spec.keySet. rewrite H. split; reflexivity. Qed.

(** C4, amended. For a verified token the handler lets the request pass
    if and only if the required scope is unset or empty, or is in the
    token's scope sequence; when the required scope is set, not empty and
    not in the token's scope sequence, the handler throws Forbidden and the
    response has status 403. *)
Theorem scope_authorization (options : AuthOptions) (req : Request.t) (res : Response.t)
    (a : string) (payload : JWTPayload) :
  bearer req a ->
  verify options (token a) = inr payload ->
  ((exists ok, createAuthHandler options req res = inr ok) <->
   (opt_scope options = Some ""
    \/ Spec.scopeAllowed (opt_scope options) (scopesOf payload)))
  /\ (forall s, opt_scope options = Some s -> s <> "" -> ~ tokenHasScope payload s ->
        createAuthHandler options req res = inl (ThrownRest RestError.forbidden)
        /\ RestError.statusCode RestError.forbidden = 403
        /\ forall rest,
             Response.statusCode (runHandlers (createAuthHandler options :: rest) req res) = 403
             /\ (Response.sent res = None ->
                 Response.sentStatus (runHandlers (createAuthHandler options :: rest) req res)
                 = Some 403)).
Proof.
  intros Hb Hv.
  rewrite (createAuthHandler_bearer _ _ _ _ Hb), (tryBlock_verified _ _ _ _ _ Hv).
  split.
  - destruct (scopeDenied _ _) eqn:Hd.
    + apply scopeDenied_true in Hd as (s & Hs & Hne & Hno). split.
      * intros [ok Hok]. discriminate.
      * rewrite Hs. intros [[= E]|Hin]; [congruence|]. exfalso. apply Hno, Hin.
    + split; [|simpl; eauto]. intros _.
      apply scopeDenied_false in Hd as [Hd|[Hd|(s & Hd & Hin)]]; rewrite Hd; simpl; auto.
  - intros s Hs Hne Hno.
    assert (scopeDenied (opt_scope options) (scopesOf payload) = true) as ->.
    { apply scopeDenied_true. eauto. }
    split; [reflexivity|]. split; [reflexivity|].
    assert (createAuthHandler options req res = inl (ThrownRest RestError.forbidden)) as Hthrow.
    { rewrite (createAuthHandler_bearer _ _ _ _ Hb), (tryBlock_verified _ _ _ _ _ Hv).
      assert (scopeDenied (opt_scope options) (scopesOf payload) = true) as ->.
      { apply scopeDenied_true. eauto. }
      reflexivity. }
    intros rest. split.
    + rewrite (runHandlers_rest_error _ _ _ _ _ Hthrow) by (cbn; lia). reflexivity.
    + intros Hsent.
      rewrite (runHandlers_rest_error_sent _ _ _ _ _ Hthrow) by (cbn; lia || exact Hsent).
      reflexivity.
Qed.

(** C10. Past the header checks, a [RestError] thrown in the [try] block
    leaves the handler unchanged, and any other error leaves it as the
    generic Unauthorized error; in particular a verified token that lacks
    the required scope makes the handler throw Forbidden, and the response
    has status 403, not 401. *)
Theorem rest_error_rethrown (options : AuthOptions) (req : Request.t) (res : Response.t)
    (a : string) :
  bearer req a ->
  match tryBlock options (token a) req res with
  | inl (ThrownRest e) => createAuthHandler options req res = inl (ThrownRest e)
  | inl (ThrownOther _) =>
      createAuthHandler options req res = inl (ThrownRest (RestError.unauthorized None))
  | inr ok => createAuthHandler options req res = inr ok
  end
  /\ (forall payload s,
        verify options (token a) = inr payload ->
        opt_scope options = Some s -> s <> "" -> ~ tokenHasScope payload s ->
        tryBlock options (token a) req res = inl (ThrownRest RestError.forbidden)
        /\ createAuthHandler options req res = inl (ThrownRest RestError.forbidden)
        /\ forall rest,
             Response.statusCode (runHandlers (createAuthHandler options :: rest) req res) = 403
             /\ Response.statusCode (runHandlers (createAuthHandler options :: rest) req res) <> 401
             /\ (Response.sent res = None ->
                 Response.sentStatus (runHandlers (createAuthHandler options :: rest) req res)
                 = Some 403)).
Proof.
  intros Hb. rewrite (createAuthHandler_bearer _ _ _ _ Hb). split.
  - destruct (tryBlock options (token a) req res) as [[e|x]|ok]; reflexivity.
  - intros payload s Hv Hs Hne Hno.
    assert (tryBlock options (token a) req res = inl (ThrownRest RestError.forbidden)) as Ht.
    { rewrite (tryBlock_verified _ _ _ _ _ Hv).
      assert (scopeDenied (opt_scope options) (scopesOf payload) = true) as ->.
      { apply scopeDenied_true. eauto. }
      reflexivity. }
    assert (catchBlock (tryBlock options (token a) req res)
            = inl (ThrownRest RestError.forbidden)) as Hc.
    { rewrite Ht. reflexivity. }
    rewrite Hc. split; [exact Ht|]. split; [reflexivity|].
    assert (createAuthHandler options req res = inl (ThrownRest RestError.forbidden)) as Hthrow.
    { rewrite (createAuthHandler_bearer _ _ _ _ Hb). exact Hc. }
    intros rest.
    rewrite (runHandlers_rest_error _ _ _ _ _ Hthrow) by (cbn; lia).
    split; [reflexivity|]. split; [discriminate|].
    intros Hsent.
    rewrite (runHandlers_rest_error_sent _ _ _ _ _ Hthrow) by (cbn; lia || exact Hsent).
    reflexivity.
Qed.

End AuthFacts.

(** ** The dispatch adapter and the error translator *)

Section DispatchFacts.

Context `{texts : RestErrorTexts} `{env : Env}.

(** The dispatch handler on a response that has not been sent, with a
    valid success status code that the request does not turn into 304. *)
Lemma createBizHandler_unsent (c : Controller) (req : Request.t) (res : Response.t)
    (P : JsValue) :
  execute c (invocationOf req) = inr P ->
  Response.sent res = None ->
  100 <= successStatusCode c <= 999 ->
  Response.reqFresh res (successStatusCode c) (Response.etagSource P) = false ->
  createBizHandler c req res
  = inr (req,
         Response.mk (successStatusCode c)
           (Some (Response.mkWire (successStatusCode c)
                    (if Response.bodiless (successStatusCode c)
                        || String.eqb (Response.reqMethod res) "HEAD"
                     then None else Some P)
                    (Response.etagSource P)))
           (Response.reqMethod res) (Response.reqValidates res)).
Proof.
  intros Hex Hs Hr Hf. unfold createBizHandler. rewrite Hex. cbn [bindE].
  pose proof (respond_unsent _ P res Hr Hs Hf) as H.
  destruct (Response.status (successStatusCode c) res) as [e|res1]; cbn [bindE liftE] in *;
    [discriminate|].
  rewrite H. reflexivity.
Qed.



(** What the error translator makes of the response is what the route
    answers, wherever in the stack the error is thrown. *)
Lemma runHandlers_throws (hs : list Handler) (req : Request.t) (res : Response.t)
    (err : Thrown) (req' : Request.t) (res' : Response.t) :
  Throws hs req res err req' res' ->
  runHandlers hs req res = fst (catchError err req' res')
  /\ routeError hs req res = snd (catchError err req' res').
Proof.
  induction 1 as [h hs req res err Hh | h hs req res req1 res1 err req' res' Hh _ IH].
  - cbn. rewrite Hh. split; reflexivity.
  - cbn. rewrite Hh. exact IH.
Qed.

(** C9, amended. When a handler of a route throws while nothing has been
    written to the response, the response is decided by the error
    translator alone: a [RestError] whose status code lies in 200..999
    (and is not turned into 304) gives that status code and the body
    { error: { data, message } }; any other error gives status 500 and
    the body { error: { message: "Internal error." } }; the body is left
    out for a status without body and for a HEAD request. A [RestError]
    whose status code lies outside 100..999 makes the translator throw
    and write nothing. When a response has been sent before the error is
    thrown, the translator's write throws and the client keeps the
    response it has. *)
Theorem error_translation (hs : list Handler) (req : Request.t) (res : Response.t)
    (err : Thrown) (req' : Request.t) (res' : Response.t) :
  Throws hs req res err req' res' ->
  (Response.sent res' = None ->
   match err with
   | ThrownRest e =>
       (200 <= RestError.statusCode e <= 999 ->
        Response.reqFresh res' (RestError.statusCode e)
          (Response.etagSource (errorBody (ThrownRest e))) = false ->
        Response.sentStatus (runHandlers hs req res) = Some (RestError.statusCode e)
        /\ Response.sentBody (runHandlers hs req res)
           = (if Response.bodiless (RestError.statusCode e)
                 || String.eqb (Response.reqMethod res') "HEAD"
              then None
              else Some (JObject [("error",
                                   JObject [("data", RestError.errorData e);
                                            ("message", JString (RestError.errorMessage e))])])))
       /\ (~ 100 <= RestError.statusCode e <= 999 ->
           Response.sent (runHandlers hs req res) = None
           /\ exists x, routeError hs req res = Some x /\ exnName x = "RangeError")
   | ThrownOther _ =>
       Response.sentStatus (runHandlers hs req res) = Some 500
       /\ Response.sentBody (runHandlers hs req res)
          = (if String.eqb (Response.reqMethod res') "HEAD" then None
             else Some (JObject [("error", JObject [("message", JString "Internal error.")])]))
   end)
  /\ (forall w, Response.sent res' = Some w ->
        Response.sent (runHandlers hs req res) = Some w
        /\ exists x, routeError hs req res = Some x).
Proof.
  intros HT. destruct (runHandlers_throws _ _ _ _ _ _ HT) as [Hrun Herr].
  rewrite Hrun, Herr. split.
  - intros Hs. destruct err as [e|x].
    + split.
      * intros Hr Hf. unfold catchError. cbn [errorStatus].
        assert (100 <= RestError.statusCode e <= 999) as Hr' by lia.
        pose proof (respond_unsent _ (errorBody (ThrownRest e)) res' Hr' Hs Hf) as H.
        destruct (Response.status (RestError.statusCode e) res') as [x|res1];
          cbn [bindE] in H; [discriminate|].
        rewrite H. split; reflexivity.
      * intros Hout. unfold catchError. cbn [errorStatus].
        destruct (status_out_of_range _ res' Hout) as (x & -> & Hname).
        split; [exact Hs|]. exists x. split; [reflexivity | exact Hname].
    + rewrite (catchError_unsent (ThrownOther x)); [|cbn; lia | exact Hs].
      split; reflexivity.
  - intros w Hs. unfold catchError.
    destruct (Response.status (errorStatus err) res') as [x|res1] eqn:Hst.
    + split; [exact Hs | eauto].
    + assert (Response.sent res1 = Some w) as Hs1.
      { unfold Response.status in Hst.
        destruct ((100 <=? errorStatus err) && (errorStatus err <=? 999)); [|discriminate].
        injection Hst as <-. exact Hs. }
      rewrite (json_sent _ _ w Hs1 (errorBody_defined err)). split; [exact Hs1 | eauto].
Qed.

End DispatchFacts.

(** ** Router assembly *)

Section RouterFacts.

Context `{texts : RestErrorTexts} `{env : Env}.

(** A turn of the loop only appends to the table, and whether it throws
    does not depend on the table. *)
Lemma registerController_append (options : RouterOptions) (f : string) (router : list Layer) :
  registerController options f router
  = (ls <-! registerController options f [] ;; inr (router ++ ls)).
Proof.
  unfold registerController, register.
  destruct (methodOf f) as [m|]; [|reflexivity].
  destruct (Js.includes allowedMethods m); simpl; [|reflexivity].
  destruct (importDefault _) as [e|[c|]]; simpl; try reflexivity.
  destruct (isPublic c); simpl.
  - destruct (routePattern _); reflexivity.
  - destruct (jwts options) as [j|]; [|reflexivity].
    destruct (Js.truthy j); simpl; [|reflexivity].
    destruct (routePattern _); simpl; [reflexivity|].
    rewrite <- app_assoc. reflexivity.
Qed.

Lemma registerFiles_app (options : RouterOptions) (pre post : list string) (router : list Layer) :
  registerFiles options (pre ++ post) router
  = (router' <-! registerFiles options pre router ;; registerFiles options post router').
Proof.
  revert router. induction pre as [|f pre IH]; intros router; simpl; [reflexivity|].
  destruct (registerController options f router) as [e|router']; simpl; [reflexivity|].
  apply IH.
Qed.

(** A file that is refused makes the whole loop throw. *)
Lemma registerFiles_refused (options : RouterOptions) (files : list string) (f : string)
    (e : Exn) (router : list Layer) :
  f ∈ files ->
  registerController options f [] = inl e ->
  exists e', registerFiles options files router = inl e'.
Proof.
  intros Hin Hf. revert router.
  induction files as [|g files IH]; intros router; [inversion Hin|].
  simpl. apply elem_of_cons in Hin as [<-|Hin].
  - rewrite registerController_append, Hf. simpl. eauto.
  - destruct (registerController options g router) as [e'|router']; simpl; [eauto|].
    apply IH, Hin.
Qed.

(** The first file that is refused decides the error. *)
Lemma registerFiles_first_refused (options : RouterOptions) (pre post : list string)
    (f : string) (e : Exn) (router : list Layer) :
  createControllerRouter options pre = inr router ->
  registerController options f [] = inl e ->
  createControllerRouter options (pre ++ f :: post) = inl e.
Proof.
  unfold createControllerRouter. intros Hpre Hf.
  rewrite registerFiles_app, Hpre. simpl.
  rewrite registerController_append, Hf. reflexivity.
Qed.

Lemma methodOf_last (f : string) :
  methodOf f = (fun segment => Js.toLowerCase (Js.replace ".js" "" segment))
                 <$> last (Js.split "/" f).
Proof. reflexivity. Qed.

(** On the files that [glob('**/*.js')] yields, a method the code accepts
    is the method the specification reads off the file name. *)
Lemma methodOf_allowed_spec (f m : string) :
  Js.endsWith f ".js" = true ->
  methodOf f = Some m ->
  m ∈ allowedMethods ->
  Spec.methodOf f = Some m.
Proof.
  intros Hend Hm Hin.
  destruct (endsWith_last_segment f Hend) as (seg & Hlast & Hseg).
  rewrite methodOf_last, Hlast in Hm. simpl in Hm. injection Hm as Hm.
  unfold Spec.methodOf. rewrite Hlast. simpl. f_equal.
  rewrite <- (replace_js_is_stripSuffix seg Hseg); [exact Hm|].
  rewrite <- hasChar_dot_toLowerCase, Hm. apply allowed_has_no_dot, Hin.
Qed.

Lemma invalid_method_refused (options : RouterOptions) (f : string) :
  Js.endsWith f ".js" = true ->
  (forall m, Spec.methodOf f = Some m -> m ∉ allowedMethods) ->
  registerController options f [] = inl (invalidMethodError f).
Proof.
  intros Hend Hbad. unfold registerController.
  destruct (methodOf f) as [m|] eqn:Hm; [|reflexivity].
  destruct (Js.includes allowedMethods m) eqn:Hinc; [|reflexivity].
  exfalso. apply includes_true in Hinc.
  apply (Hbad m); [|exact Hinc].
  apply methodOf_allowed_spec; assumption.
Qed.

(** C6. A controller file whose final segment, minus the [.js] suffix and
    in lower case, is not [get], [post] or [patch] makes router assembly
    throw, so that no router is returned; when the loop reaches the file,
    the error is the one that names it. *)
Theorem invalid_method_fails_assembly (options : RouterOptions) (pre post : list string)
    (f : string) :
  Js.endsWith f ".js" = true ->
  (forall m, Spec.methodOf f = Some m -> m ∉ allowedMethods) ->
  (exists e, createControllerRouter options (pre ++ f :: post) = inl e)
  /\ (forall router,
        createControllerRouter options pre = inr router ->
        createControllerRouter options (pre ++ f :: post)
        = inl (Error ("The method is invalid for the file " +:+ f +:+ "."))).
Proof.
  intros Hend Hbad.
  pose proof (invalid_method_refused options f Hend Hbad) as Hf.
  split.
  - apply (registerFiles_refused options _ f (invalidMethodError f)); [|exact Hf].
    apply elem_of_app. right. apply elem_of_cons. left. reflexivity.
  - intros router Hpre. exact (registerFiles_first_refused _ _ _ _ _ _ Hpre Hf).
Qed.

Lemma private_without_jwts_refused (options : RouterOptions) (f m : string) (c : Controller) :
  jwts options = None ->
  methodOf f = Some m ->
  m ∈ allowedMethods ->
  importDefault (controllerDir options +:+ "/" +:+ f) = inr (Some c) ->
  isPublic c = false ->
  registerController options f [] = inl (jwtsRequiredError (urlPathOf f) m).
Proof.
  intros Hj Hm Hin Himp Hpriv. unfold registerController.
  apply includes_true in Hin. rewrite Hm, Hin, Himp. simpl.
  rewrite Hpriv, Hj. reflexivity.
Qed.

(** C7. A controller that is loaded and is not marked public, when no
    JWTS configuration was supplied, makes router assembly throw; when the
    loop reaches the file, the error is the one that names its route. *)
Theorem private_without_jwts_fails_assembly (options : RouterOptions)
    (pre post : list string) (f m : string) (c : Controller) :
  jwts options = None ->
  methodOf f = Some m ->
  m ∈ allowedMethods ->
  importDefault (controllerDir options +:+ "/" +:+ f) = inr (Some c) ->
  isPublic c = false ->
  (exists e, createControllerRouter options (pre ++ f :: post) = inl e)
  /\ (forall router,
        createControllerRouter options pre = inr router ->
        createControllerRouter options (pre ++ f :: post)
        = inl (Error ("A JWTS configuration is required since the controller "
                      +:+ urlPathOf f +:+ "/" +:+ m +:+ " is private."))).
Proof.
  intros Hj Hm Hin Himp Hpriv.
  pose proof (private_without_jwts_refused options f m c Hj Hm Hin Himp Hpriv) as Hf.
  split.
  - apply (registerFiles_refused options _ f (jwtsRequiredError (urlPathOf f) m)); [|exact Hf].
    apply elem_of_app. right. apply elem_of_cons. left. reflexivity.
  - intros router Hpre. exact (registerFiles_first_refused _ _ _ _ _ _ Hpre Hf).
Qed.

Lemma descriptorsAt_app (r1 r2 : list Layer) (method path : string) :
  descriptorsAt (r1 ++ r2) method path
  = descriptorsAt r1 method path ++ descriptorsAt r2 method path.
Proof. unfold descriptorsAt. apply List.filter_app. Qed.

(** The layers one file adds hold one Route Descriptor, at the route the
    file resolves to. *)
Lemma registerController_descriptors (options : RouterOptions) (f : string)
    (ls : list Layer) (method path : string) :
  registerController options f [] = inr ls ->
  length (descriptorsAt ls method path) = if resolvesTo method path f then 1%nat else 0%nat.
Proof.
  unfold registerController, resolvesTo.
  destruct (methodOf f) as [m|]; [|discriminate].
  destruct (Js.includes allowedMethods m); simpl; [|discriminate].
  assert (String.eqb m method = bool_decide (Some m = Some method)) as Hdec.
  { destruct (String.eqb_spec m method) as [->|NE].
    - symmetry. apply bool_decide_eq_true_2. reflexivity.
    - symmetry. apply bool_decide_eq_false_2. congruence. }
  destruct (importDefault _) as [e|[c|]]; simpl; try discriminate.
  unfold register.
  destruct (isPublic c); simpl.
  - destruct (routePattern _); [discriminate|].
    intros [= <-]. unfold descriptorsAt, layerAt, isBiz. simpl.
    rewrite Hdec. destruct (_ && _); reflexivity.
  - destruct (jwts options) as [j|]; [|discriminate].
    destruct (Js.truthy j); simpl; [|discriminate].
    destruct (routePattern _); simpl; [discriminate|].
    intros [= <-]. unfold descriptorsAt, layerAt, isBiz. simpl.
    rewrite Hdec. destruct (_ && _); reflexivity.
Qed.

Lemma registerFiles_descriptors (options : RouterOptions) (files : list string)
    (router : list Layer) :
  (forall f, f ∈ files -> exists ls, registerController options f [] = inr ls) ->
  exists router',
    registerFiles options files router = inr router'
    /\ forall method path,
         length (descriptorsAt router' method path)
         = (length (descriptorsAt router method path)
            + length (List.filter (resolvesTo method path) files))%nat.
Proof.
  revert router. induction files as [|f files IH]; intros router Hall.
  - exists router. split; [reflexivity|]. intros. simpl. lia.
  - destruct (Hall f) as [ls Hls]; [apply elem_of_cons; auto|].
    destruct (IH (router ++ ls)) as (router' & Hr & Hcount).
    { intros g Hg. apply Hall, elem_of_cons. auto. }
    exists router'. split.
    + simpl. rewrite registerController_append, Hls. simpl. exact Hr.
    + intros method path. rewrite Hcount, descriptorsAt_app, length_app.
      rewrite (registerController_descriptors _ _ _ method path Hls). simpl.
      destruct (resolvesTo method path f); simpl; lia.
Qed.

(** C8, amended. The assembly has no check for duplicates: when every
    discovered file passes its own checks, assembly succeeds, and the
    table holds, for each (method, path) pair, as many Route Descriptors
    as there are discovered files that resolve to the pair. *)
Theorem assembly_registers_every_file (options : RouterOptions) (files : list string) :
  (forall f, f ∈ files -> exists ls, registerController options f [] = inr ls) ->
  exists router,
    createControllerRouter options files = inr router
    /\ forall method path,
         length (descriptorsAt router method path)
         = length (List.filter (resolvesTo method path) files).
Proof.
  intros Hall.
  destruct (registerFiles_descriptors options files [] Hall) as (router & Hr & Hcount).
  exists router. split; [exact Hr|]. intros method path. rewrite Hcount. reflexivity.
Qed.

End RouterFacts.

(** ** The properties on the small deployment *)

Ltac demo_bearer :=
  unfold bearer; split; [vm_compute; reflexivity | split; [discriminate | reflexivity]].

Lemma auth_failure_unauthorized_witness :
  Request.headers Demo.anonymous !! "authorization" = None
  /\ exists message,
       @createAuthHandler Demo.texts Demo.env Demo.remote Demo.anonymous Response.fresh
       = inl (ThrownRest (@RestError.unauthorized Demo.texts message))
       /\ RestError.statusCode (@RestError.unauthorized Demo.texts message) = 401
       /\ forall rest,
            Response.statusCode
              (runHandlers (@createAuthHandler Demo.texts Demo.env Demo.remote :: rest)
                           Demo.anonymous Response.fresh) = 401
            /\ (Response.sent Response.fresh = None ->
                Response.sentStatus
                  (runHandlers (@createAuthHandler Demo.texts Demo.env Demo.remote :: rest)
                               Demo.anonymous Response.fresh) = Some 401).
Proof.
  split; [vm_compute; reflexivity|].
  apply (@auth_failure_unauthorized Demo.texts Demo.env Demo.remote Demo.anonymous Response.fresh).
  left. vm_compute. reflexivity.
Defined.

(** C2, as stated, fails: the administrator's request carries an
    [x-personate-sub] header whose value is empty, and the subject of the
    Auth Context is the token's own [root], not the header's value. *)
Lemma impersonation_counterexample :
  bearer (Demo.adminAs "") "Bearer admin-token"
  /\ @verify Demo.env Demo.remote (token "Bearer admin-token") = inr Demo.adminPayload
  /\ tokenHasScope Demo.adminPayload "*:admin"
  /\ Request.header (Demo.adminAs "") "x-personate-sub" = Some ""
  /\ exists req' ctx,
       @createAuthHandler Demo.texts Demo.env Demo.remote (Demo.adminAs "") Response.fresh
       = inr (req', Response.fresh)
       /\ Request.auth req' = Some ctx
       /\ sub ctx = Some "root"
       /\ sub ctx <> Some "".
Proof.
  split; [demo_bearer|]. split; [vm_compute; reflexivity|].
  split; [exists ["*:admin"; "read:users"]; split; [reflexivity | apply elem_of_cons; auto]|].
  split; [vm_compute; reflexivity|].
  eexists. eexists. split; [vm_compute; reflexivity|].
  split; [reflexivity|]. split; [reflexivity | discriminate].
Qed.

Lemma impersonation_subject_witness :
  bearer (Demo.adminAs "carol") "Bearer admin-token"
  /\ exists ctx,
       @createAuthHandler Demo.texts Demo.env Demo.remote (Demo.adminAs "carol") Response.fresh
       = inr (Request.setAuth ctx (Demo.adminAs "carol"), Response.fresh)
       /\ (tokenHasScope Demo.adminPayload "*:admin" ->
           forall X, Request.header (Demo.adminAs "carol") "x-personate-sub" = Some X ->
                     X <> "" -> sub ctx = Some X)
       /\ (tokenHasScope Demo.adminPayload "*:admin" ->
           Request.header (Demo.adminAs "carol") "x-personate-sub" = None
           \/ Request.header (Demo.adminAs "carol") "x-personate-sub" = Some "" ->
           sub ctx = payload_sub Demo.adminPayload)
       /\ (~ tokenHasScope Demo.adminPayload "*:admin" ->
           sub ctx = payload_sub Demo.adminPayload).
Proof.
  split; [demo_bearer|].
  apply (@impersonation_subject Demo.texts Demo.env Demo.remote (Demo.adminAs "carol")
           Response.fresh "Bearer admin-token" Demo.adminPayload).
  - demo_bearer.
  - vm_compute. reflexivity.
  - vm_compute. reflexivity.
Defined.

(** C3 on the deployment: the inline document parses, the key set built
    from it verifies the reader's token, and the handler rejects the
    request all the same. *)
Lemma inline_jwts_never_parsed_witness :
  @Spec.keySet Demo.env Demo.inline = inr (Demo.LocalKeys (JObject [("keys", JArray [])]))
  /\ @jwtVerify Demo.env (Some "reader-token") (Demo.LocalKeys (JObject [("keys", JArray [])]))
     = inr Demo.readerPayload
  /\ @keySet Demo.env Demo.inline
     = inl (SyntaxError undefinedIsNotJSON)
  /\ @createAuthHandler Demo.texts Demo.env Demo.inline Demo.reader Response.fresh
     = inl (ThrownRest (@RestError.unauthorized Demo.texts None))
  /\ forall rest,
       Response.statusCode
         (runHandlers (@createAuthHandler Demo.texts Demo.env Demo.inline :: rest)
                      Demo.reader Response.fresh) = 401
       /\ (Response.sent Response.fresh = None ->
           Response.sentStatus
             (runHandlers (@createAuthHandler Demo.texts Demo.env Demo.inline :: rest)
                          Demo.reader Response.fresh) = Some 401).
Proof.
  split; [vm_compute; reflexivity|]. split; [vm_compute; reflexivity|].
  apply (@inline_jwts_never_parsed Demo.texts Demo.env Demo.inline Demo.reader Response.fresh
           "Bearer reader-token").
  - vm_compute. reflexivity.
  - demo_bearer.
Defined.

(** C4, as stated, fails: the required scope is set, to the empty text,
    and is not in the writer's scope sequence, yet the request passes. *)
Lemma scope_authorization_counterexample :
  bearer Demo.writer "Bearer writer-token"
  /\ @verify Demo.env Demo.emptyScope (token "Bearer writer-token") = inr Demo.writerPayload
  /\ opt_scope Demo.emptyScope = Some ""
  /\ scopesOf Demo.writerPayload = Some ["write:users"]
  /\ ("" ∉ ["write:users"])
  /\ ~ Spec.scopeAllowed (opt_scope Demo.emptyScope) (scopesOf Demo.writerPayload)
  /\ (exists req',
        @createAuthHandler Demo.texts Demo.env Demo.emptyScope Demo.writer Response.fresh
        = inr (req', Response.fresh))
  /\ @createAuthHandler Demo.texts Demo.env Demo.emptyScope Demo.writer Response.fresh
     <> inl (ThrownRest (@RestError.forbidden Demo.texts)).
Proof.
  assert ("" ∉ ["write:users"]) as Hnot.
  { intros H. apply list_elem_of_singleton in H. discriminate. }
  split; [demo_bearer|]. split; [vm_compute; reflexivity|].
  split; [reflexivity|]. split; [reflexivity|]. split; [exact Hnot|].
  split.
  { intros (l & [= <-] & Hin). exact (Hnot Hin). }
  split; [eexists; vm_compute; reflexivity|].
  vm_compute. discriminate.
Qed.

Lemma scope_authorization_witness :
  bearer Demo.writer "Bearer writer-token"
  /\ @createAuthHandler Demo.texts Demo.env Demo.remote Demo.writer Response.fresh
     = inl (ThrownRest (@RestError.forbidden Demo.texts))
  /\ forall rest,
       Response.statusCode
         (runHandlers (@createAuthHandler Demo.texts Demo.env Demo.remote :: rest)
                      Demo.writer Response.fresh) = 403
       /\ (Response.sent Response.fresh = None ->
           Response.sentStatus
             (runHandlers (@createAuthHandler Demo.texts Demo.env Demo.remote :: rest)
                          Demo.writer Response.fresh) = Some 403).
Proof.
  split; [demo_bearer|].
  assert (~ tokenHasScope Demo.writerPayload "read:users") as Hno.
  { intros (l & [= <-] & Hin). apply list_elem_of_singleton in Hin. discriminate. }
  destruct (@scope_authorization Demo.texts Demo.env Demo.remote Demo.writer Response.fresh
              "Bearer writer-token" Demo.writerPayload) as [_ Hdeny].
  - demo_bearer.
  - vm_compute. reflexivity.
  - destruct (Hdeny "read:users") as (Hthrow & _ & Hstatus);
      [reflexivity | discriminate | exact Hno |].
    split; [exact Hthrow | exact Hstatus].
Defined.



(** C9, as stated, fails: the first controller of the route has sent its
    200 when the second one throws; the status stays 200 and the body
    stays the first controller's, not the translator's. *)
Lemma error_translation_counterexample :
  Throws [createBizHandler Demo.listUsers; createBizHandler Demo.failing]
         Demo.anonymous Response.fresh
         (ThrownOther (Error "database is down")) Demo.anonymous
         (Response.mk 200
            (Some (Response.mkWire 200 (Some (JArray [Demo.userName]))
                                   (Some (JArray [Demo.userName]))))
            "GET" (fun _ => false))
  /\ Response.sentStatus
       (runHandlers [createBizHandler Demo.listUsers; createBizHandler Demo.failing]
                    Demo.anonymous Response.fresh) = Some 200
  /\ Response.sentBody
       (runHandlers [createBizHandler Demo.listUsers; createBizHandler Demo.failing]
                    Demo.anonymous Response.fresh) = Some (JArray [Demo.userName])
  /\ Some 200 <> Some 500
  /\ routeError [createBizHandler Demo.listUsers; createBizHandler Demo.failing]
                Demo.anonymous Response.fresh = Some headersSentError.
Proof.
  split.
  { eapply Throws_later; [reflexivity|]. apply Throws_here. reflexivity. }
  split; [reflexivity|]. split; [reflexivity|]. split; [discriminate | reflexivity].
Qed.

Lemma error_translation_witness :
  Throws [createBizHandler Demo.failing] Demo.anonymous Response.fresh
         (ThrownOther (Error "database is down")) Demo.anonymous Response.fresh
  /\ Response.sentStatus
       (runHandlers [createBizHandler Demo.failing] Demo.anonymous Response.fresh) = Some 500
  /\ Response.sentBody
       (runHandlers [createBizHandler Demo.failing] Demo.anonymous Response.fresh)
     = Some (JObject [("error", JObject [("message", JString "Internal error.")])]).
Proof.
  assert (Throws [createBizHandler Demo.failing] Demo.anonymous Response.fresh
                 (ThrownOther (Error "database is down")) Demo.anonymous Response.fresh) as HT.
  { apply Throws_here. reflexivity. }
  split; [exact HT|].
  exact (proj1 (error_translation _ _ _ _ _ _ HT) eq_refl).
Defined.

Lemma rest_error_rethrown_witness :
  bearer Demo.writer "Bearer writer-token"
  /\ @tryBlock Demo.texts Demo.env Demo.remote (token "Bearer writer-token")
       Demo.writer Response.fresh
     = inl (ThrownRest (@RestError.forbidden Demo.texts))
  /\ @createAuthHandler Demo.texts Demo.env Demo.remote Demo.writer Response.fresh
     = inl (ThrownRest (@RestError.forbidden Demo.texts)).
Proof.
  split; [demo_bearer|].
  assert (~ tokenHasScope Demo.writerPayload "read:users") as Hno.
  { intros (l & [= <-] & Hin). apply list_elem_of_singleton in Hin. discriminate. }
  destruct (@rest_error_rethrown Demo.texts Demo.env Demo.remote Demo.writer Response.fresh
              "Bearer writer-token") as [_ Hscope]; [demo_bearer|].
  destruct (Hscope Demo.writerPayload "read:users") as (Htry & Hthrow & _);
    [vm_compute; reflexivity | reflexivity | discriminate | exact Hno |].
  split; [exact Htry | exact Hthrow].
Defined.

Lemma invalid_method_fails_assembly_witness :
  Js.endsWith "users/delete.js" ".js" = true
  /\ Spec.methodOf "users/delete.js" = Some "delete"
  /\ @createControllerRouter Demo.env Demo.secured ["users/get.js"; "users/delete.js"; "users/post.js"]
     = inl (Error "The method is invalid for the file users/delete.js.").
Proof.
  split; [reflexivity|]. split; [reflexivity|].
  destruct (@invalid_method_fails_assembly Demo.env Demo.secured
              ["users/get.js"] ["users/post.js"] "users/delete.js") as [_ Hnamed].
  - reflexivity.
  - intros m Hm. vm_compute in Hm. injection Hm as <-.
    unfold allowedMethods. rewrite !elem_of_cons, elem_of_nil.
    intros [H|[H|[H|[]]]]; discriminate.
  - apply (Hnamed [mkLayer "get" "/users" (BizLayer Demo.listUsers)]).
    vm_compute. reflexivity.
Defined.

Lemma private_without_jwts_fails_assembly_witness :
  jwts Demo.unsecured = None
  /\ isPublic Demo.createUser = false
  /\ @createControllerRouter Demo.env Demo.unsecured ["users/get.js"; "users/post.js"]
     = inl (Error "A JWTS configuration is required since the controller /users/post is private.").
Proof.
  split; [reflexivity|]. split; [reflexivity|].
  destruct (@private_without_jwts_fails_assembly Demo.env Demo.unsecured
              ["users/get.js"] [] "users/post.js" "post" Demo.createUser) as [_ Hnamed].
  - reflexivity.
  - reflexivity.
  - unfold allowedMethods. apply elem_of_cons. right. apply elem_of_cons. left. reflexivity.
  - vm_compute. reflexivity.
  - reflexivity.
  - apply (Hnamed [mkLayer "get" "/users" (BizLayer Demo.listUsers)]).
    vm_compute. reflexivity.
Defined.

(** C8, as stated, fails: two files of one directory resolve to the route
    (get, /users); assembly raises no error and the table holds two Route
    Descriptors for the pair. *)
Lemma duplicate_route_counterexample :
  "users/get.js" <> "users/GET.js"
  /\ @resolvesTo Demo.env "get" "/users" "users/get.js" = true
  /\ @resolvesTo Demo.env "get" "/users" "users/GET.js" = true
  /\ @createControllerRouter Demo.env Demo.unsecured ["users/get.js"; "users/GET.js"]
     = inr [mkLayer "get" "/users" (BizLayer Demo.listUsers);
            mkLayer "get" "/users" (BizLayer Demo.listUsers)]
  /\ length (descriptorsAt [mkLayer "get" "/users" (BizLayer Demo.listUsers);
                            mkLayer "get" "/users" (BizLayer Demo.listUsers)]
                           "get" "/users") = 2%nat.
Proof.
  split; [discriminate|]. repeat split; vm_compute; reflexivity.
Qed.

Lemma assembly_registers_every_file_witness :
  exists router,
    @createControllerRouter Demo.env Demo.unsecured ["users/get.js"; "users/GET.js"] = inr router
    /\ forall method path,
         length (descriptorsAt router method path)
         = length (List.filter (@resolvesTo Demo.env method path) ["users/get.js"; "users/GET.js"]).
Proof.
  apply (@assembly_registers_every_file Demo.env Demo.unsecured ["users/get.js"; "users/GET.js"]).
  intros f Hin.
  apply elem_of_cons in Hin as [->|Hin]; [eexists; vm_compute; reflexivity|].
  apply list_elem_of_singleton in Hin as ->. eexists. vm_compute. reflexivity.
Defined.

(** ** Further facts about the string primitives *)

Lemma split_sep (sep : ascii) (a b : string) :
  Js.split sep (a +:+ String sep b) = Js.split sep a ++ Js.split sep b.
Proof.
  induction a as [|c a IH].
  - rewrite append_empty_l. cbn [Js.split]. rewrite Ascii.eqb_refl. reflexivity.
  - rewrite append_cons. cbn [Js.split]. destruct (Ascii.eqb c sep).
    + rewrite IH. reflexivity.
    + rewrite IH. destruct (Js.split sep a) as [|w ws] eqn:E.
      * exfalso. exact (split_nonempty _ _ E).
      * reflexivity.
Qed.

Lemma split_whole (sep : ascii) (s : string) :
  hasChar sep s = false -> Js.split sep s = [s].
Proof.
  induction s as [|c s IH]; [reflexivity|].
  cbn [hasChar Js.split]. intros H. apply orb_false_elim in H as [Hc Hs].
  rewrite Hc, (IH Hs). reflexivity.
Qed.

(** No word of a split text contains the separator. *)
Lemma split_words (sep : ascii) (s x : string) :
  x ∈ Js.split sep s -> hasChar sep x = false.
Proof.
  revert x. induction s as [|c s IH]; intros x.
  - cbn [Js.split]. intros H. apply list_elem_of_singleton in H as ->. reflexivity.
  - cbn [Js.split]. destruct (Ascii.eqb c sep) eqn:Ec.
    + intros H. apply elem_of_cons in H as [->|H]; [reflexivity | exact (IH x H)].
    + destruct (Js.split sep s) as [|w ws] eqn:E; [exfalso; exact (split_nonempty _ _ E)|].
      intros H. apply elem_of_cons in H as [->|H].
      * cbn [hasChar]. rewrite Ec. apply (IH w). apply elem_of_cons. auto.
      * apply (IH x). apply elem_of_cons. auto.
Qed.

Lemma join_cons (sep w : string) (ws : list string) :
  ws <> [] -> Js.join sep (w :: ws) = w +:+ sep +:+ Js.join sep ws.
Proof. destruct ws; [congruence | reflexivity]. Qed.

Lemma append_assoc (a b c : string) : (a +:+ b) +:+ c = a +:+ (b +:+ c).
Proof.
  induction a as [|x a IH]; [reflexivity|].
  rewrite !append_cons, IH. reflexivity.
Qed.

(** Joining the words of a split text gives the text back. *)
Lemma join_split (sep : ascii) (s : string) :
  Js.join (String sep "") (Js.split sep s) = s.
Proof.
  induction s as [|c s IH]; [reflexivity|].
  cbn [Js.split]. destruct (Ascii.eqb_spec c sep) as [->|NE].
  - rewrite join_cons by apply split_nonempty. rewrite IH. reflexivity.
  - destruct (Js.split sep s) as [|w ws] eqn:E; [exfalso; exact (split_nonempty _ _ E)|].
    destruct ws as [|w' ws].
    + cbn in IH. cbn. rewrite IH. reflexivity.
    + rewrite join_cons in IH by discriminate.
      rewrite join_cons by discriminate.
      rewrite append_cons, IH. reflexivity.
Qed.

Lemma replace_suffix_plain (n : string) :
  hasChar "." n = false -> Js.replace ".js" "" (n +:+ ".js") = n.
Proof.
  induction n as [|c n IH]; [reflexivity|].
  cbn [hasChar]. intros H. apply orb_false_elim in H as [Hc Hn].
  rewrite append_cons. cbn [Js.replace].
  assert (String.prefix ".js" (String c (n +:+ ".js")) = false) as ->.
  { cbn [String.prefix]. destruct (ascii_dec "." c) as [<-|_]; [discriminate | reflexivity]. }
  rewrite (IH Hn). reflexivity.
Qed.

Lemma hasChar_true_nonempty (c : ascii) (s : string) : hasChar c s = true -> s <> "".
Proof. destruct s; [discriminate | discriminate]. Qed.

(** ** More on the authentication handler *)

Section AuthMore.

Context `{texts : RestErrorTexts} `{env : Env}.

Lemma authContext_header (req1 req2 : Request.t) (payload : JWTPayload) :
  Request.header req1 "x-personate-sub" = Request.header req2 "x-personate-sub" ->
  authContext req1 payload = authContext req2 payload.
Proof. intros H. unfold authContext. rewrite H. reflexivity. Qed.

Lemma sameOutcome_refl_inl (e : Thrown) : sameOutcome (inl e) (inl e).
Proof. reflexivity. Qed.

(** Two requests with non-empty [Authorization] headers that have the
    same first two words, and the same [x-personate-sub] header, have the
    same outcome. *)
Lemma auth_outcome_words (options : AuthOptions) (req1 req2 : Request.t) (res : Response.t)
    (a1 a2 : string) :
  Request.headers req1 !! "authorization" = Some a1 ->
  Request.headers req2 !! "authorization" = Some a2 ->
  a1 <> "" -> a2 <> "" ->
  tokenType a1 = tokenType a2 ->
  token a1 = token a2 ->
  Request.header req1 "x-personate-sub" = Request.header req2 "x-personate-sub" ->
  sameOutcome (createAuthHandler options req1 res) (createAuthHandler options req2 res).
Proof.
  intros H1 H2 Hn1 Hn2 Hty Htok Hx. unfold createAuthHandler. rewrite H1, H2.
  apply truthy_true in Hn1, Hn2. rewrite Hn1, Hn2, Hty, Htok. cbn [negb].
  destruct (bool_decide (tokenType a2 = Some "Bearer")); cbn [negb]; [|reflexivity].
  unfold tryBlock. destruct (verify options (token a2)) as [e|payload]; [reflexivity|].
  cbn [liftE bindE]. destruct (scopeDenied _ _); [reflexivity|].
  cbn [catchBlock sameOutcome Request.setAuth Request.auth].
  rewrite (authContext_header req1 req2 payload Hx). split; reflexivity.
Qed.

(** X1. A header that is absent or empty is answered with the message
    "Authorization header is required."; a non-empty header whose first
    word is not [Bearer], with "Authorization token type is unsupported.".
    Neither case reaches the key set or the token verification. *)
Theorem header_check_messages (options : AuthOptions) (req : Request.t) (res : Response.t) :
  (Request.headers req !! "authorization" = None
   \/ Request.headers req !! "authorization" = Some "" ->
   createAuthHandler options req res
   = inl (ThrownRest (RestError.unauthorized (Some "Authorization header is required."))))
  /\ (forall a, Request.headers req !! "authorization" = Some a -> a <> "" ->
                tokenType a <> Some "Bearer" ->
                createAuthHandler options req res
                = inl (ThrownRest (RestError.unauthorized
                                     (Some "Authorization token type is unsupported.")))).
Proof.
  unfold createAuthHandler. split.
  - intros [->| ->]; reflexivity.
  - intros a -> Hne Hty. apply truthy_true in Hne. rewrite Hne. cbn [negb].
    rewrite (bool_decide_eq_false_2 _ Hty). reflexivity.
Qed.

(** X2. Whatever error the key set construction or [jwtVerify] throws, the
    handler throws the same generic Unauthorized error: two requests whose
    verification fails for different reasons get the same response. *)
Theorem verification_failure_opaque (options1 options2 : AuthOptions)
    (req1 req2 : Request.t) (res : Response.t) (a1 a2 : string) (e1 e2 : Exn)
    (rest1 rest2 : list Handler) :
  bearer req1 a1 -> verify options1 (token a1) = inl e1 ->
  bearer req2 a2 -> verify options2 (token a2) = inl e2 ->
  createAuthHandler options1 req1 res = inl (ThrownRest (RestError.unauthorized None))
  /\ runHandlers (createAuthHandler options1 :: rest1) req1 res
     = runHandlers (createAuthHandler options2 :: rest2) req2 res.
Proof.
  intros Hb1 Hv1 Hb2 Hv2.
  assert (forall options req a e, bearer req a -> verify options (token a) = inl e ->
            createAuthHandler options req res
            = inl (ThrownRest (RestError.unauthorized None))) as Hgen.
  { intros options req a e Hb Hv.
    rewrite (createAuthHandler_bearer _ _ _ _ Hb), (tryBlock_unverified _ _ _ _ _ Hv).
    reflexivity. }
  split; [exact (Hgen _ _ _ _ Hb1 Hv1)|].
  cbn [runHandlers]. rewrite (Hgen _ _ _ _ Hb1 Hv1), (Hgen _ _ _ _ Hb2 Hv2). reflexivity.
Qed.

(** X3. The handler never lets a request pass without a verified token:
    when it calls [next()], the header was a non-empty [Bearer] header,
    the token was verified, the scope check did not throw, the response
    is untouched, and the request differs only by its Auth Context, whose
    name, audience and scopes are the token's. *)
Theorem auth_success_inversion (options : AuthOptions) (req req' : Request.t)
    (res res' : Response.t) :
  createAuthHandler options req res = inr (req', res') ->
  exists a payload ctx,
    bearer req a
    /\ verify options (token a) = inr payload
    /\ scopeDenied (opt_scope options) (scopesOf payload) = false
    /\ res' = res
    /\ Request.headers req' = Request.headers req
    /\ Request.body req' = Request.body req
    /\ Request.params req' = Request.params req
    /\ Request.rawBody req' = Request.rawBody req
    /\ Request.auth req' = Some ctx
    /\ name ctx = payload_name payload
    /\ aud ctx = payload_aud payload
    /\ scopes ctx = scopesOf payload.
Proof.
  unfold createAuthHandler.
  destruct (Request.headers req !! "authorization") as [a|] eqn:Hh; [|discriminate].
  destruct (Js.truthy a) eqn:Hne; cbn [negb]; [|discriminate].
  destruct (bool_decide (tokenType a = Some "Bearer")) eqn:Hty; cbn [negb]; [|discriminate].
  unfold tryBlock.
  destruct (verify options (token a)) as [e|payload] eqn:Hv; [discriminate|].
  cbn [liftE bindE].
  destruct (scopeDenied _ _) eqn:Hd; [discriminate|].
  cbn [catchBlock]. intros [= <- <-].
  exists a, payload, (authContext req payload).
  apply truthy_true in Hne. apply bool_decide_eq_true_1 in Hty.
  split; [unfold bearer; auto|].
  do 8 (split; [first [assumption | reflexivity]|]).
  unfold authContext. destruct (Js.includesO _ _); repeat split; reflexivity.
Qed.

(** X4. The outcome of the handler depends on the request through two
    headers only, [authorization] and [x-personate-sub]: two requests that
    agree on them are answered alike. *)
Theorem auth_reads_two_headers (options : AuthOptions) (req1 req2 : Request.t)
    (res : Response.t) :
  Request.headers req1 !! "authorization" = Request.headers req2 !! "authorization" ->
  Request.header req1 "x-personate-sub" = Request.header req2 "x-personate-sub" ->
  sameOutcome (createAuthHandler options req1 res) (createAuthHandler options req2 res).
Proof.
  intros Ha Hx.
  destruct (Request.headers req2 !! "authorization") as [a|] eqn:H2.
  - destruct (String.eqb_spec a "") as [->|Hne].
    + unfold createAuthHandler. rewrite Ha, H2. reflexivity.
    + apply (auth_outcome_words options req1 req2 res a a); auto.
  - unfold createAuthHandler. rewrite Ha, H2. reflexivity.
Qed.

Lemma bearer_words (t more : string) :
  hasChar " " t = false ->
  Js.split " " ("Bearer " +:+ t) = ["Bearer"; t]
  /\ Js.split " " ("Bearer " +:+ t +:+ " " +:+ more) = "Bearer" :: t :: Js.split " " more.
Proof.
  intros Ht. split.
  - change ("Bearer " +:+ t) with ("Bearer" +:+ String " " t).
    rewrite split_sep, (split_whole _ _ Ht). reflexivity.
  - change ("Bearer " +:+ t +:+ " " +:+ more)
      with ("Bearer" +:+ String " " (t +:+ String " " more)).
    rewrite !split_sep, (split_whole _ _ Ht). reflexivity.
Qed.

(** X5. Only the first two words of the header count: what follows a
    second space is ignored, so [Bearer t] and [Bearer t more] are
    answered alike, and the token given to [jwtVerify] is [t]. *)
Theorem trailing_words_ignored (options : AuthOptions) (req1 req2 : Request.t)
    (res : Response.t) (t more : string) :
  hasChar " " t = false ->
  Request.headers req1 !! "authorization" = Some ("Bearer " +:+ t) ->
  Request.headers req2 !! "authorization" = Some ("Bearer " +:+ t +:+ " " +:+ more) ->
  Request.header req1 "x-personate-sub" = Request.header req2 "x-personate-sub" ->
  token ("Bearer " +:+ t +:+ " " +:+ more) = Some t
  /\ sameOutcome (createAuthHandler options req1 res) (createAuthHandler options req2 res).
Proof.
  intros Ht H1 H2 Hx. destruct (bearer_words t more Ht) as [E1 E2].
  split.
  - unfold token. rewrite E2. reflexivity.
  - apply (auth_outcome_words options req1 req2 res _ _ H1 H2); [discriminate|discriminate| | |exact Hx].
    + unfold tokenType. rewrite E1, E2. reflexivity.
    + unfold token. rewrite E1, E2. reflexivity.
Qed.

(** X6. A required scope that contains a space is never granted: the
    token's scopes are the words between spaces, so every verified token
    is answered Forbidden on such a route. *)
Theorem scope_with_space_never_granted (options : AuthOptions) (req : Request.t)
    (res : Response.t) (a s : string) (payload : JWTPayload) :
  bearer req a ->
  verify options (token a) = inr payload ->
  opt_scope options = Some s ->
  hasChar " " s = true ->
  ~ tokenHasScope payload s
  /\ createAuthHandler options req res = inl (ThrownRest RestError.forbidden).
Proof.
  intros Hb Hv Hs Hsp.
  assert (~ tokenHasScope payload s) as Hno.
  { intros (l & Hl & Hin). unfold scopesOf in Hl.
    destruct (payload_scope payload) as [text|]; [|discriminate].
    cbn in Hl. injection Hl as <-. apply split_words in Hin. congruence. }
  split; [exact Hno|].
  rewrite (createAuthHandler_bearer _ _ _ _ Hb), (tryBlock_verified _ _ _ _ _ Hv).
  assert (scopeDenied (opt_scope options) (scopesOf payload) = true) as ->.
  { apply scopeDenied_true. exists s. split; [exact Hs|]. split; [|exact Hno].
    exact (hasChar_true_nonempty _ _ Hsp). }
  reflexivity.
Qed.

(** X7. On a private route, a verified and authorised request is handled
    as the dispatch handler handles the request with the token's Auth
    Context attached: the controller is constructed with that Auth
    Context and with the body, path parameters, raw body and headers of
    the request; what it throws goes to the error translator; and when
    nothing has been written yet and its success status code [S] lies in
    200..999 and is not turned into 304, its result is sent with status
    [S]. *)
Theorem private_route_pipeline (options : AuthOptions) (c : Controller) (req : Request.t)
    (res : Response.t) (a : string) (payload : JWTPayload) :
  bearer req a ->
  verify options (token a) = inr payload ->
  scopeDenied (opt_scope options) (scopesOf payload) = false ->
  let invocation :=
    mkInvocation (Request.body req) (Some (authContext req payload))
                 (Request.params req) (Request.rawBody req) (Request.headers req) in
  runHandlers [createAuthHandler options; createBizHandler c] req res
  = runHandlers [createBizHandler c] (Request.setAuth (authContext req payload) req) res
  /\ invocationOf (Request.setAuth (authContext req payload) req) = invocation
  /\ (forall err,
        execute c invocation = inl err ->
        runHandlers [createAuthHandler options; createBizHandler c] req res
        = fst (catchError err (Request.setAuth (authContext req payload) req) res))
  /\ (forall result,
        execute c invocation = inr result ->
        Response.sent res = None ->
        200 <= successStatusCode c <= 999 ->
        Response.reqFresh res (successStatusCode c) (Response.etagSource result) = false ->
        Response.sentStatus (runHandlers [createAuthHandler options; createBizHandler c] req res)
        = Some (successStatusCode c)
        /\ Response.sentBody
             (runHandlers [createAuthHandler options; createBizHandler c] req res)
           = (if Response.bodiless (successStatusCode c)
                 || String.eqb (Response.reqMethod res) "HEAD"
              then None else Some result)).
Proof.
  intros Hb Hv Hd invocation.
  assert (runHandlers [createAuthHandler options; createBizHandler c] req res
          = runHandlers [createBizHandler c] (Request.setAuth (authContext req payload) req) res)
    as Hrun.
  { cbn [runHandlers].
    rewrite (createAuthHandler_bearer _ _ _ _ Hb), (tryBlock_verified _ _ _ _ _ Hv), Hd.
    reflexivity. }
  split; [exact Hrun|]. split; [reflexivity|]. rewrite Hrun. split.
  - intros err Hex. cbn [runHandlers]. unfold createBizHandler.
    change (invocationOf (Request.setAuth (authContext req payload) req)) with invocation.
    rewrite Hex. reflexivity.
  - intros result Hex Hs Hr Hf. cbn [runHandlers].
    assert (100 <= successStatusCode c <= 999) as Hr' by lia.
    rewrite (createBizHandler_unsent c (Request.setAuth (authContext req payload) req)
               res result Hex Hs Hr' Hf).
    split; reflexivity.
Qed.

(** X8. Once a handler of a route has thrown, the handlers registered
    after it have no part in the response, which is what the error
    translator makes of the response as it is when the error is thrown:
    behind an authentication handler that throws, the controller is not
    executed. *)
Theorem later_handlers_irrelevant (hs more more' : list Handler) (req : Request.t)
    (res : Response.t) (err : Thrown) (req' : Request.t) (res' : Response.t) :
  Throws hs req res err req' res' ->
  runHandlers (hs ++ more) req res = runHandlers (hs ++ more') req res
  /\ runHandlers (hs ++ more) req res = fst (catchError err req' res')
  /\ routeError (hs ++ more) req res = snd (catchError err req' res').
Proof.
  intros HT.
  assert (forall extra,
            runHandlers (hs ++ extra) req res = fst (catchError err req' res')
            /\ routeError (hs ++ extra) req res = snd (catchError err req' res')) as Hrun.
  { intros extra.
    induction HT as [h hs req res err Hh | h hs req res req1 res1 err req' res' Hh _ IH].
    - cbn. rewrite Hh. split; reflexivity.
    - cbn. rewrite Hh. exact IH. }
  split; [rewrite (proj1 (Hrun more)), (proj1 (Hrun more')); reflexivity | apply Hrun].
Qed.

End AuthMore.

(** ** More on router assembly *)

Section RouterMore.

Context `{env : Env}.

(** What one turn of the loop has checked and appended when it does not
    throw. *)
Lemma registerController_inv (options : RouterOptions) (f : string) (b : list Layer) :
  registerController options f [] = inr b ->
  exists m c,
    methodOf f = Some m
    /\ m ∈ allowedMethods
    /\ importDefault (controllerDir options +:+ "/" +:+ f) = inr (Some c)
    /\ routePattern (urlPathOf f) = None
    /\ ((isPublic c = true /\ b = [mkLayer m (urlPathOf f) (BizLayer c)])
        \/ (isPublic c = false
            /\ exists j, jwts options = Some j /\ j <> ""
                 /\ b = [mkLayer m (urlPathOf f)
                           (AuthLayer (mkAuthOptions j (Js.or (scope c) (defaultScope options))));
                         mkLayer m (urlPathOf f) (BizLayer c)])).
Proof.
  unfold registerController.
  destruct (methodOf f) as [m|]; [|discriminate].
  destruct (Js.includes allowedMethods m) eqn:Hinc; cbn [negb]; [|discriminate].
  apply includes_true in Hinc.
  destruct (importDefault _) as [e|[c|]] eqn:Himp; cbn [bindE]; try discriminate.
  unfold register.
  destruct (isPublic c) eqn:Hpub; cbn [negb].
  - destruct (routePattern (urlPathOf f)) eqn:Hpat; [discriminate|].
    intros [= <-]. exists m, c. repeat (split; [reflexivity || assumption|]).
    left. split; [assumption | reflexivity].
  - destruct (jwts options) as [j|] eqn:Hj; [|discriminate].
    destruct (Js.truthy j) eqn:Ht; cbn [negb]; [|discriminate].
    apply truthy_true in Ht.
    destruct (routePattern (urlPathOf f)) eqn:Hpat; cbn [bindE]; [discriminate|].
    intros [= <-]. exists m, c. repeat (split; [reflexivity || assumption|]).
    right. split; [assumption|]. exists j. repeat split; assumption || reflexivity.
Qed.

Lemma passes_accepted (options : RouterOptions) (f : string) :
  passes options f <-> exists b, registerController options f [] = inr b.
Proof.
  split.
  - intros (m & c & Hm & Hin & Himp & Hgate & Hpat). unfold registerController, register.
    apply includes_true in Hin. rewrite Hm, Hin, Himp. cbn [negb bindE].
    destruct (isPublic c) eqn:Hpub; cbn [negb]; [rewrite Hpat; eauto|].
    destruct Hgate as [?|(j & Hj & Hne)]; [discriminate|].
    apply truthy_true in Hne. rewrite Hj, Hne. cbn [negb]. rewrite Hpat. cbn [bindE]. eauto.
  - intros [b Hb].
    apply registerController_inv in Hb as (m & c & Hm & Hin & Himp & Hpat & Hcase).
    exists m, c. repeat (split; [assumption|]).
    split; [|exact Hpat].
    destruct Hcase as [[Hpub _]|(_ & j & Hj & Hne & _)]; eauto.
Qed.

(** The invariant of the loop: what has been appended is a gated table
    that holds the routes of the files, in their order, and every file
    has passed. *)
Lemma registerFiles_inv (options : RouterOptions) (files : list string)
    (router router' : list Layer) :
  registerFiles options files router = inr router' ->
  exists added,
    router' = router ++ added
    /\ Gated options added
    /\ (fun l => (Some (layer_method l), layer_path l)) <$> List.filter isBiz added
       = (fun f => (methodOf f, urlPathOf f)) <$> files
    /\ forall f, f ∈ files -> passes options f.
Proof.
  revert router. induction files as [|f files IH]; intros router.
  - intros [= <-]. exists []. rewrite app_nil_r. repeat split; [constructor|].
    intros f Hf. inversion Hf.
  - cbn [registerFiles]. rewrite registerController_append.
    destruct (registerController options f []) as [e|b] eqn:Hb; [discriminate|].
    cbn [bindE]. intros Hrest.
    destruct (IH _ Hrest) as (added & -> & Hg & Hroutes & Hpass).
    exists (b ++ added). split; [rewrite app_assoc; reflexivity|].
    pose proof Hb as Hinv.
    apply registerController_inv in Hinv as (m & c & Hm & Hin & Himp & Hpat & Hcase).
    split; [|split].
    + destruct Hcase as [[Hpub ->]|(Hpriv & j & Hj & Hne & ->)].
      * apply Gated_public; assumption.
      * apply Gated_private; assumption.
    + rewrite fmap_cons, <- Hroutes, Hm.
      destruct Hcase as [[_ ->]|(_ & j & _ & _ & ->)]; reflexivity.
    + intros g Hg'. apply elem_of_cons in Hg' as [->|Hg'].
      * apply passes_accepted. eauto.
      * apply Hpass, Hg'.
Qed.

Lemma registerFiles_accepted (options : RouterOptions) (files : list string)
    (router : list Layer) :
  (forall f, f ∈ files -> passes options f) ->
  exists router', registerFiles options files router = inr router'.
Proof.
  revert router. induction files as [|f files IH]; intros router Hall; [cbn; eauto|].
  cbn [registerFiles]. rewrite registerController_append.
  destruct (proj1 (passes_accepted options f)) as [b Hb]; [apply Hall, elem_of_cons; auto|].
  rewrite Hb. cbn [bindE]. apply IH. intros g Hg. apply Hall, elem_of_cons. auto.
Qed.

Lemma Gated_guarded (options : RouterOptions) (router : list Layer) :
  Gated options router ->
  forall (i : nat) m p c,
    router !! i = Some (mkLayer m p (BizLayer c)) ->
    isPublic c = false ->
    exists k j,
      i = S k /\ jwts options = Some j /\ j <> ""
      /\ router !! k
         = Some (mkLayer m p (AuthLayer (mkAuthOptions j (Js.or (scope c) (defaultScope options))))).
Proof.
  induction 1 as [|m' p' c' rest Hpub _ IH|m' p' c' j rest Hpriv Hj Hne _ IH];
    intros i m p c Hi Hc.
  - rewrite lookup_nil in Hi. discriminate.
  - destruct i as [|i]; cbn in Hi.
    + injection Hi as <- <- <-. congruence.
    + destruct (IH i m p c Hi Hc) as (k & j & -> & Hj & Hne & Hk).
      exists (S k), j. repeat split; assumption.
  - destruct i as [|[|i]]; cbn in Hi.
    + discriminate.
    + injection Hi as <- <- <-. exists 0%nat, j. repeat split; assumption.
    + destruct (IH i m p c Hi Hc) as (k & j' & -> & Hj' & Hne' & Hk).
      exists (S (S k)), j'. repeat split; assumption.
Qed.

Lemma Gated_auth_followed (options : RouterOptions) (router : list Layer) :
  Gated options router ->
  forall (i : nat) m p o,
    router !! i = Some (mkLayer m p (AuthLayer o)) ->
    exists c, router !! S i = Some (mkLayer m p (BizLayer c)) /\ isPublic c = false.
Proof.
  induction 1 as [|m' p' c' rest Hpub _ IH|m' p' c' j rest Hpriv Hj Hne _ IH];
    intros i m p o Hi.
  - rewrite lookup_nil in Hi. discriminate.
  - destruct i as [|i]; cbn in Hi; [discriminate|]. exact (IH i m p o Hi).
  - destruct i as [|[|i]]; cbn in Hi.
    + injection Hi as <- <- _. exists c'. split; [reflexivity | assumption].
    + discriminate.
    + exact (IH i m p o Hi).
Qed.

(** X9. Router assembly succeeds exactly when every discovered file
    passes on its own: an allowed method, a module with a default export,
    a non-empty JWTS configuration if the controller is private, and a
    path pattern that Express accepts when the route is registered. *)
Theorem assembly_succeeds_iff (options : RouterOptions) (files : list string) :
  (exists router, createControllerRouter options files = inr router)
  <-> forall f, f ∈ files -> passes options f.
Proof.
  unfold createControllerRouter. split.
  - intros [router Hr]. apply registerFiles_inv in Hr as (added & _ & _ & _ & Hpass).
    exact Hpass.
  - apply registerFiles_accepted.
Qed.

(** X10. In the table of an assembled router the dispatch layer of a
    private controller always stands right after an authentication layer
    for the same method and path, bound to the configured [jwts] and to
    the scope [c.scope || defaultScope]; and every authentication layer is
    followed by such a dispatch layer. *)
Theorem private_routes_are_gated (options : RouterOptions) (files : list string)
    (router : list Layer) :
  createControllerRouter options files = inr router ->
  (forall (i : nat) m p c,
     router !! i = Some (mkLayer m p (BizLayer c)) ->
     isPublic c = false ->
     exists k j,
       i = S k /\ jwts options = Some j /\ j <> ""
       /\ router !! k
          = Some (mkLayer m p (AuthLayer (mkAuthOptions j (Js.or (scope c) (defaultScope options))))))
  /\ (forall (i : nat) m p o,
        router !! i = Some (mkLayer m p (AuthLayer o)) ->
        exists c, router !! S i = Some (mkLayer m p (BizLayer c)) /\ isPublic c = false).
Proof.
  unfold createControllerRouter. intros Hr.
  apply registerFiles_inv in Hr as (added & -> & Hg & _ & _). cbn [app].
  split; [exact (Gated_guarded _ _ Hg) | exact (Gated_auth_followed _ _ Hg)].
Qed.

(** X11. The dispatch layers of an assembled router are those of the
    discovered files, one per file and in discovery order, each at the
    method and the path its file resolves to. *)
Theorem descriptors_in_discovery_order (options : RouterOptions) (files : list string)
    (router : list Layer) :
  createControllerRouter options files = inr router ->
  (fun l => (Some (layer_method l), layer_path l)) <$> List.filter isBiz router
  = (fun f => (methodOf f, urlPathOf f)) <$> files.
Proof.
  unfold createControllerRouter. intros Hr.
  apply registerFiles_inv in Hr as (added & -> & _ & Hroutes & _). exact Hroutes.
Qed.

Lemma filter_length_Permutation {A : Type} (P : A -> bool) (l l' : list A) :
  l ≡ₚ l' -> length (List.filter P l) = length (List.filter P l').
Proof.
  induction 1 as [|x l l' _ IH|x y l|l l' l'' _ IH1 _ IH2]; cbn.
  - reflexivity.
  - destruct (P x); cbn; rewrite IH; reflexivity.
  - destruct (P x), (P y); reflexivity.
  - rewrite IH1. exact IH2.
Qed.

(** X12. Whether assembly succeeds does not depend on the order in which
    the files are discovered, and neither does the number of Route
    Descriptors a (method, path) pair gets. *)
Theorem assembly_order_independent (options : RouterOptions) (files files' : list string) :
  files ≡ₚ files' ->
  ((exists router, createControllerRouter options files = inr router)
   <-> (exists router', createControllerRouter options files' = inr router'))
  /\ (forall router router',
        createControllerRouter options files = inr router ->
        createControllerRouter options files' = inr router' ->
        forall method path,
          length (descriptorsAt router method path)
          = length (descriptorsAt router' method path)).
Proof.
  intros Hperm. unfold createControllerRouter.
  assert (forall l l', l ≡ₚ l' ->
            (exists r, registerFiles options l [] = inr r) ->
            exists r', registerFiles options l' [] = inr r') as Hmove.
  { intros l l' Hp [r Hr]. apply registerFiles_accepted.
    apply registerFiles_inv in Hr as (_ & _ & _ & _ & Hpass).
    intros f Hf. apply Hpass. rewrite Hp. exact Hf. }
  split.
  - split; [apply Hmove; exact Hperm | apply Hmove; symmetry; exact Hperm].
  - intros router router' Hr Hr' method path.
    assert (forall l r, registerFiles options l [] = inr r ->
              length (descriptorsAt r method path)
              = length (List.filter (resolvesTo method path) l)) as Hcount.
    { intros l r Hl.
      destruct (registerFiles_descriptors options l []) as (r0 & Hr0 & Hc).
      - intros f Hf. apply passes_accepted.
        apply registerFiles_inv in Hl as (_ & _ & _ & _ & Hpass). apply Hpass, Hf.
      - rewrite Hl in Hr0. injection Hr0 as <-. rewrite Hc. reflexivity. }
    rewrite (Hcount _ _ Hr), (Hcount _ _ Hr').
    apply filter_length_Permutation, Hperm.
Qed.

(** X13. An empty [jwts] text counts as no configuration: a private
    controller then makes assembly throw the error that names its route. *)
Theorem empty_jwts_is_missing (options : RouterOptions) (pre post : list string)
    (f m : string) (c : Controller) (router : list Layer) :
  jwts options = Some "" ->
  methodOf f = Some m ->
  m ∈ allowedMethods ->
  importDefault (controllerDir options +:+ "/" +:+ f) = inr (Some c) ->
  isPublic c = false ->
  createControllerRouter options pre = inr router ->
  createControllerRouter options (pre ++ f :: post)
  = inl (Error ("A JWTS configuration is required since the controller "
                +:+ urlPathOf f +:+ "/" +:+ m +:+ " is private.")).
Proof.
  intros Hj Hm Hin Himp Hpriv Hpre.
  apply (registerFiles_first_refused _ _ _ _ _ _ Hpre).
  unfold registerController. apply includes_true in Hin.
  rewrite Hm, Hin, Himp. cbn [negb bindE]. rewrite Hpriv, Hj. reflexivity.
Qed.

(** X14. What the dynamic import throws for a file with an allowed method
    is what assembly throws, unchanged; a module without a default export
    makes it throw a [TypeError]. Neither depends on the controller being
    public or on the JWTS configuration. *)
Theorem import_failure_propagates (options : RouterOptions) (pre post : list string)
    (f m : string) (router : list Layer) :
  methodOf f = Some m ->
  m ∈ allowedMethods ->
  createControllerRouter options pre = inr router ->
  (forall e, importDefault (controllerDir options +:+ "/" +:+ f) = inl e ->
             createControllerRouter options (pre ++ f :: post) = inl e)
  /\ (importDefault (controllerDir options +:+ "/" +:+ f) = inr None ->
      createControllerRouter options (pre ++ f :: post)
      = inl (TypeError "Cannot read properties of undefined (reading 'isPublic')")).
Proof.
  intros Hm Hin Hpre. apply includes_true in Hin. split.
  - intros e He. apply (registerFiles_first_refused _ _ _ _ _ _ Hpre).
    unfold registerController. rewrite Hm, Hin, He. reflexivity.
  - intros He. apply (registerFiles_first_refused _ _ _ _ _ _ Hpre).
    unfold registerController. rewrite Hm, Hin, He. reflexivity.
Qed.

Lemma pop_nested (d segment : string) :
  hasChar "/" segment = false ->
  Js.pop (Js.split "/" (d +:+ "/" +:+ segment)) = (Some segment, Js.split "/" d).
Proof.
  intros Hs. change (d +:+ "/" +:+ segment) with (d +:+ String "/" segment).
  rewrite split_sep, (split_whole _ _ Hs). unfold Js.pop.
  rewrite last_snoc, removelast_last. reflexivity.
Qed.

(** X15. The file name gives the method and the directory gives the
    path: for a file [d/segment], the method is read off [segment] alone
    and the path is made of the converted segments of [d]; when the
    conversion leaves those segments as they are, the path is [/d]. *)
Theorem route_of_nested_file (d segment : string) :
  hasChar "/" segment = false ->
  methodOf (d +:+ "/" +:+ segment) = Some (Js.toLowerCase (Js.replace ".js" "" segment))
  /\ urlPathOf (d +:+ "/" +:+ segment)
     = "/" +:+ Js.join "/" (openApiPathToExpressPath <$> Js.split "/" d)
  /\ ((forall x, x ∈ Js.split "/" d -> openApiPathToExpressPath x = x) ->
      urlPathOf (d +:+ "/" +:+ segment) = "/" +:+ d).
Proof.
  intros Hs. unfold methodOf, urlPathOf, partsOf. rewrite (pop_nested d segment Hs).
  cbn [fst snd]. split; [reflexivity|]. split; [reflexivity|].
  intros Hid. f_equal.
  assert (openApiPathToExpressPath <$> Js.split "/" d = Js.split "/" d) as ->.
  { induction (Js.split "/" d) as [|x l IH]; [reflexivity|].
    rewrite fmap_cons, IH.
    - rewrite Hid; [reflexivity | apply elem_of_cons; auto].
    - intros y Hy. apply Hid, elem_of_cons. auto. }
  apply (join_split "/" d).
Qed.

(** X16. A controller file that lies directly in the controller directory
    is registered at the path [/], whatever its name and whatever the
    path conversion does. *)
Theorem route_of_root_file (f : string) :
  hasChar "/" f = false ->
  urlPathOf f = "/"
  /\ methodOf f = Some (Js.toLowerCase (Js.replace ".js" "" f)).
Proof.
  intros Hf. unfold methodOf, urlPathOf, partsOf.
  rewrite (split_whole _ _ Hf). split; reflexivity.
Qed.

(** X17. The letter case of the file name does not matter: a file
    [d/name.js] whose name has no dot resolves to the method that is
    [name] in lower case, so [GET.js], [Get.js] and [get.js] of one
    directory all resolve to the same route. *)
Theorem method_name_any_case (d n n' : string) :
  hasChar "/" n = false -> hasChar "." n = false ->
  hasChar "/" n' = false -> hasChar "." n' = false ->
  Js.toLowerCase n = Js.toLowerCase n' ->
  methodOf (d +:+ "/" +:+ n +:+ ".js") = Some (Js.toLowerCase n)
  /\ methodOf (d +:+ "/" +:+ n +:+ ".js") = methodOf (d +:+ "/" +:+ n' +:+ ".js")
  /\ urlPathOf (d +:+ "/" +:+ n +:+ ".js") = urlPathOf (d +:+ "/" +:+ n' +:+ ".js").
Proof.
  intros Hs Hd Hs' Hd' Hlow.
  assert (forall x, hasChar "/" x = false -> hasChar "/" (x +:+ ".js") = false) as Hjs.
  { induction x as [|c x IH]; [reflexivity|].
    rewrite append_cons. cbn [hasChar]. intros H. apply orb_false_elim in H as [Hc Hx].
    rewrite Hc, (IH Hx). reflexivity. }
  assert (forall x, hasChar "/" x = false -> hasChar "." x = false ->
            methodOf (d +:+ "/" +:+ x +:+ ".js") = Some (Js.toLowerCase x)) as Hm.
  { intros x Hx Hx'. unfold methodOf. rewrite (pop_nested d _ (Hjs x Hx)).
    cbn [fst fmap option_fmap option_map]. rewrite (replace_suffix_plain x Hx'). reflexivity. }
  split; [apply Hm; assumption|]. split.
  - rewrite (Hm n Hs Hd), (Hm n' Hs' Hd'), Hlow. reflexivity.
  - unfold urlPathOf, partsOf.
    rewrite (pop_nested d _ (Hjs n Hs)), (pop_nested d _ (Hjs n' Hs')). reflexivity.
Qed.

End RouterMore.

(** ** The application bootstrap *)

Section BootstrapFacts.

Context `{env : Env} `{host : Host}.

(** An error of the loop is the error of one of the files. *)
Lemma registerFiles_error_source (options : RouterOptions) (files : list string)
    (router : list Layer) (e : Exn) :
  registerFiles options files router = inl e ->
  exists f, f ∈ files /\ registerController options f [] = inl e.
Proof.
  revert router. induction files as [|f files IH]; intros router; [discriminate|].
  cbn [registerFiles]. rewrite registerController_append.
  destruct (registerController options f []) as [e'|b] eqn:Hb; cbn [bindE].
  - intros [= <-]. exists f. split; [apply elem_of_cons; auto | exact Hb].
  - intros Hrest. destruct (IH _ Hrest) as (g & Hg & He).
    exists g. split; [apply elem_of_cons; auto | exact He].
Qed.

(** X18. [registerControllers] mounts the trace handler first in every
    outcome. Without a [dist/controllers] directory it mounts nothing else
    and does not fail, whatever the options. With it, either every
    discovered file passes and one router is mounted at [/rest], or the
    promise rejects with the error of one of the discovered files and no
    router is mounted. *)
Theorem bootstrap_mounts (options : RegisterOptions) (app : list Mount) :
  let dir := cwd +:+ "/dist/controllers/" in
  let routerOptions := mkRouterOptions dir (reg_jwts options) (reg_scope options) in
  (existsSync "dist/controllers" = false ->
   registerControllers options app = (app ++ [TraceHandler], None))
  /\ (existsSync "dist/controllers" = true ->
      (exists router,
         registerControllers options app
         = (app ++ [TraceHandler; RouterAt "/rest" router], None)
         /\ createControllerRouter routerOptions (glob "**/*.js" dir) = inr router
         /\ forall f, f ∈ glob "**/*.js" dir -> passes routerOptions f)
      \/ (exists e f,
            registerControllers options app = (app ++ [TraceHandler], Some e)
            /\ f ∈ glob "**/*.js" dir
            /\ registerController routerOptions f [] = inl e)).
Proof.
  intros dir routerOptions. unfold registerControllers. split.
  - intros ->. reflexivity.
  - intros ->. fold dir. fold routerOptions.
    destruct (createControllerRouter routerOptions (glob "**/*.js" dir)) as [e|router] eqn:Hr.
    + right. apply registerFiles_error_source in Hr as (f & Hf & He).
      exists e, f. repeat split; assumption.
    + left. exists router. split; [rewrite <- app_assoc; reflexivity|].
      split; [reflexivity|].
      apply registerFiles_inv in Hr as (_ & _ & _ & _ & Hpass). exact Hpass.
Qed.

End BootstrapFacts.

(** ** The further properties on the small deployment *)

Lemma header_check_messages_witness :
  @createAuthHandler Demo.texts Demo.env Demo.remote
    (Demo.request [("authorization", "")]) Response.fresh
  = inl (ThrownRest (@RestError.unauthorized Demo.texts
                       (Some "Authorization header is required."))).
Proof.
  apply (proj1 (@header_check_messages Demo.texts Demo.env Demo.remote
                  (Demo.request [("authorization", "")]) Response.fresh)).
  right. vm_compute. reflexivity.
Defined.

Lemma verification_failure_opaque_witness :
  @verify Demo.env Demo.remote (token "Bearer forged-token")
  = inl (mkExn "JWSInvalid" "Invalid Compact JWS")
  /\ @verify Demo.env Demo.inline (token "Bearer reader-token")
     = inl (SyntaxError undefinedIsNotJSON)
  /\ runHandlers [@createAuthHandler Demo.texts Demo.env Demo.remote] Demo.forged Response.fresh
     = runHandlers [@createAuthHandler Demo.texts Demo.env Demo.inline] Demo.reader Response.fresh.
Proof.
  split; [vm_compute; reflexivity|]. split; [vm_compute; reflexivity|].
  apply (@verification_failure_opaque Demo.texts Demo.env Demo.remote Demo.inline
           Demo.forged Demo.reader Response.fresh "Bearer forged-token" "Bearer reader-token"
           (mkExn "JWSInvalid" "Invalid Compact JWS")
           (SyntaxError undefinedIsNotJSON) [] []).
  - demo_bearer.
  - vm_compute. reflexivity.
  - demo_bearer.
  - vm_compute. reflexivity.
Defined.

Lemma auth_success_inversion_witness :
  exists a payload ctx,
    bearer Demo.reader a
    /\ @verify Demo.env Demo.remote (token a) = inr payload
    /\ scopeDenied (opt_scope Demo.remote) (scopesOf payload) = false
    /\ Response.fresh = Response.fresh
    /\ Request.headers (Request.setAuth (authContext Demo.reader Demo.readerPayload) Demo.reader)
       = Request.headers Demo.reader
    /\ Request.body (Request.setAuth (authContext Demo.reader Demo.readerPayload) Demo.reader)
       = Request.body Demo.reader
    /\ Request.params (Request.setAuth (authContext Demo.reader Demo.readerPayload) Demo.reader)
       = Request.params Demo.reader
    /\ Request.rawBody (Request.setAuth (authContext Demo.reader Demo.readerPayload) Demo.reader)
       = Request.rawBody Demo.reader
    /\ Request.auth (Request.setAuth (authContext Demo.reader Demo.readerPayload) Demo.reader)
       = Some ctx
    /\ name ctx = payload_name payload
    /\ aud ctx = payload_aud payload
    /\ scopes ctx = scopesOf payload.
Proof.
  apply (@auth_success_inversion Demo.texts Demo.env Demo.remote Demo.reader
           (Request.setAuth (authContext Demo.reader Demo.readerPayload) Demo.reader)
           Response.fresh Response.fresh).
  vm_compute. reflexivity.
Defined.

Lemma auth_reads_two_headers_witness :
  sameOutcome
    (@createAuthHandler Demo.texts Demo.env Demo.remote Demo.reader Response.fresh)
    (@createAuthHandler Demo.texts Demo.env Demo.remote
       (Request.mk (Request.headers Demo.reader) (JString "payload")
                   {[ "id" := "42" ]} (Some "payload") None)
       Response.fresh).
Proof.
  apply (@auth_reads_two_headers Demo.texts Demo.env); reflexivity.
Defined.

Lemma trailing_words_ignored_witness :
  token "Bearer reader-token and more" = Some "reader-token"
  /\ sameOutcome
       (@createAuthHandler Demo.texts Demo.env Demo.remote Demo.reader Response.fresh)
       (@createAuthHandler Demo.texts Demo.env Demo.remote
          (Demo.request [("authorization", "Bearer reader-token and more")]) Response.fresh).
Proof.
  apply (@trailing_words_ignored Demo.texts Demo.env Demo.remote Demo.reader
           (Demo.request [("authorization", "Bearer reader-token and more")])
           Response.fresh "reader-token" "and more").
  - reflexivity.
  - vm_compute. reflexivity.
  - vm_compute. reflexivity.
  - vm_compute. reflexivity.
Defined.

Lemma scope_with_space_never_granted_witness :
  ~ tokenHasScope Demo.readerPayload "read:users write:users"
  /\ @createAuthHandler Demo.texts Demo.env
       (mkAuthOptions Demo.issuer (Some "read:users write:users")) Demo.reader Response.fresh
     = inl (ThrownRest (@RestError.forbidden Demo.texts)).
Proof.
  apply (@scope_with_space_never_granted Demo.texts Demo.env
           (mkAuthOptions Demo.issuer (Some "read:users write:users")) Demo.reader
           Response.fresh "Bearer reader-token" "read:users write:users" Demo.readerPayload).
  - demo_bearer.
  - vm_compute. reflexivity.
  - reflexivity.
  - reflexivity.
Defined.

Lemma private_route_pipeline_witness :
  Response.sentStatus
    (runHandlers [@createAuthHandler Demo.texts Demo.env Demo.remote;
                  createBizHandler Demo.getUser] Demo.reader Response.fresh) = Some 200
  /\ Response.sentBody
       (runHandlers [@createAuthHandler Demo.texts Demo.env Demo.remote;
                     createBizHandler Demo.getUser] Demo.reader Response.fresh)
     = Some Demo.userName.
Proof.
  destruct (@private_route_pipeline Demo.texts Demo.env Demo.remote Demo.getUser Demo.reader
              Response.fresh "Bearer reader-token" Demo.readerPayload)
    as (_ & _ & _ & Hok);
    [demo_bearer | vm_compute; reflexivity | vm_compute; reflexivity|].
  apply (Hok Demo.userName); [reflexivity | reflexivity | cbn; lia | reflexivity].
Defined.

Lemma later_handlers_irrelevant_witness :
  runHandlers ([@createAuthHandler Demo.texts Demo.env Demo.remote]
                 ++ [createBizHandler Demo.getUser]) Demo.anonymous Response.fresh
  = runHandlers ([@createAuthHandler Demo.texts Demo.env Demo.remote]
                   ++ [createBizHandler Demo.failing]) Demo.anonymous Response.fresh.
Proof.
  apply (later_handlers_irrelevant [@createAuthHandler Demo.texts Demo.env Demo.remote]
           [createBizHandler Demo.getUser] [createBizHandler Demo.failing]
           Demo.anonymous Response.fresh
           (ThrownRest (@RestError.unauthorized Demo.texts
                          (Some "Authorization header is required.")))
           Demo.anonymous Response.fresh).
  apply Throws_here. vm_compute. reflexivity.
Defined.

Lemma assembly_succeeds_iff_witness :
  exists router,
    @createControllerRouter Demo.env Demo.secured ["users/get.js"; "users/{id}/get.js"]
    = inr router.
Proof.
  apply (proj2 (@assembly_succeeds_iff Demo.env Demo.secured
                  ["users/get.js"; "users/{id}/get.js"])).
  intros f Hf. apply elem_of_cons in Hf as [->|Hf].
  - exists "get", Demo.listUsers. split; [reflexivity|].
    split; [apply elem_of_cons; auto|]. split; [vm_compute; reflexivity|].
    split; [left; reflexivity | vm_compute; reflexivity].
  - apply list_elem_of_singleton in Hf as ->.
    exists "get", Demo.getUser. split; [reflexivity|].
    split; [apply elem_of_cons; auto|]. split; [vm_compute; reflexivity|].
    split; [|vm_compute; reflexivity].
    right. exists Demo.issuer. split; [reflexivity | discriminate].
Defined.

Lemma private_routes_are_gated_witness :
  exists k j,
    2%nat = S k /\ jwts Demo.secured = Some j /\ j <> ""
    /\ [mkLayer "get" "/users" (BizLayer Demo.listUsers);
        mkLayer "get" "/users/:id" (AuthLayer Demo.remote);
        mkLayer "get" "/users/:id" (BizLayer Demo.getUser)] !! k
       = Some (mkLayer "get" "/users/:id"
                 (AuthLayer (mkAuthOptions j (Js.or (scope Demo.getUser)
                                                    (defaultScope Demo.secured))))).
Proof.
  apply (proj1 (@private_routes_are_gated Demo.env Demo.secured
                  ["users/get.js"; "users/{id}/get.js"]
                  [mkLayer "get" "/users" (BizLayer Demo.listUsers);
                   mkLayer "get" "/users/:id" (AuthLayer Demo.remote);
                   mkLayer "get" "/users/:id" (BizLayer Demo.getUser)]
                  ltac:(vm_compute; reflexivity))
           2%nat "get" "/users/:id" Demo.getUser); reflexivity.
Defined.

Lemma descriptors_in_discovery_order_witness :
  (fun l => (Some (layer_method l), layer_path l))
    <$> List.filter isBiz [mkLayer "get" "/users" (BizLayer Demo.listUsers);
                           mkLayer "get" "/users/:id" (AuthLayer Demo.remote);
                           mkLayer "get" "/users/:id" (BizLayer Demo.getUser)]
  = (fun f => (@methodOf f, @urlPathOf Demo.env f)) <$> ["users/get.js"; "users/{id}/get.js"].
Proof.
  apply (@descriptors_in_discovery_order Demo.env Demo.secured).
  vm_compute. reflexivity.
Defined.

Lemma assembly_order_independent_witness :
  (exists router,
     @createControllerRouter Demo.env Demo.secured ["users/get.js"; "users/{id}/get.js"]
     = inr router)
  <-> (exists router',
         @createControllerRouter Demo.env Demo.secured ["users/{id}/get.js"; "users/get.js"]
         = inr router').
Proof.
  apply (proj1 (@assembly_order_independent Demo.env Demo.secured
                  ["users/get.js"; "users/{id}/get.js"] ["users/{id}/get.js"; "users/get.js"]
                  (perm_swap _ _ _))).
Defined.

Lemma empty_jwts_is_missing_witness :
  @createControllerRouter Demo.env (mkRouterOptions Demo.dir (Some "") None)
    ["users/get.js"; "users/post.js"]
  = inl (Error "A JWTS configuration is required since the controller /users/post is private.").
Proof.
  apply (@empty_jwts_is_missing Demo.env (mkRouterOptions Demo.dir (Some "") None)
           ["users/get.js"] [] "users/post.js" "post" Demo.createUser
           [mkLayer "get" "/users" (BizLayer Demo.listUsers)]).
  - reflexivity.
  - reflexivity.
  - apply elem_of_cons. right. apply elem_of_cons. left. reflexivity.
  - vm_compute. reflexivity.
  - reflexivity.
  - vm_compute. reflexivity.
Defined.

Lemma import_failure_propagates_witness :
  @createControllerRouter Demo.env Demo.secured ["users/get.js"; "orders/get.js"]
  = inl (mkExn "Error" "Cannot find module").
Proof.
  apply (proj1 (@import_failure_propagates Demo.env Demo.secured
                  ["users/get.js"] [] "orders/get.js" "get"
                  [mkLayer "get" "/users" (BizLayer Demo.listUsers)]
                  ltac:(reflexivity)
                  ltac:(apply elem_of_cons; left; reflexivity)
                  ltac:(vm_compute; reflexivity))).
  vm_compute. reflexivity.
Defined.

Lemma route_of_nested_file_witness :
  @methodOf "users/{id}/Get.js" = Some "get"
  /\ @urlPathOf Demo.env "users/{id}/Get.js"
     = "/" +:+ Js.join "/" (Demo.braceToColon <$> ["users"; "{id}"]).
Proof.
  destruct (@route_of_nested_file Demo.env "users/{id}" "Get.js") as (Hm & Hp & _).
  - reflexivity.
  - split; [exact Hm | exact Hp].
Defined.

Lemma route_of_root_file_witness :
  @urlPathOf Demo.env "get.js" = "/" /\ @methodOf "get.js" = Some "get".
Proof.
  apply (@route_of_root_file Demo.env "get.js"). reflexivity.
Defined.

Lemma method_name_any_case_witness :
  @methodOf "users/GET.js" = Some "get"
  /\ @methodOf "users/GET.js" = @methodOf "users/get.js"
  /\ @urlPathOf Demo.env "users/GET.js" = @urlPathOf Demo.env "users/get.js".
Proof.
  apply (@method_name_any_case Demo.env "users" "GET" "get"); reflexivity.
Defined.

Lemma bootstrap_mounts_witness :
  @registerControllers Demo.env DemoHost.bare (mkRegisterOptions None None) []
  = ([TraceHandler], None).
Proof.
  apply (proj1 (@bootstrap_mounts Demo.env DemoHost.bare (mkRegisterOptions None None) [])).
  reflexivity.
Defined.

Example pattern_refused_at_registration :
  @createControllerRouter Demo.env Demo.secured ["users/get.js"; "a(b/get.js"]
  = inl (TypeError "Unexpected ( in /a(b").
Proof. vm_compute. reflexivity. Qed.

Example head_request_has_no_body :
  createBizHandler Demo.listUsers Demo.anonymous Demo.headResponse
  = inr (Demo.anonymous,
         Response.mk 200
           (Some (Response.mkWire 200 None (Some (JArray [Demo.userName]))))
           "HEAD" (fun _ => false)).
Proof. reflexivity. Qed.

Example bootstrap_compiled_project :
  @registerControllers Demo.env DemoHost.compiled
    (mkRegisterOptions (Some Demo.issuer) None) []
  = ([TraceHandler;
      RouterAt "/rest"
        [mkLayer "get" "/users" (BizLayer Demo.listUsers);
         mkLayer "get" "/users/:id" (AuthLayer Demo.remote);
         mkLayer "get" "/users/:id" (BizLayer Demo.getUser);
         mkLayer "post" "/users" (AuthLayer (mkAuthOptions Demo.issuer None));
         mkLayer "post" "/users" (BizLayer Demo.createUser)]], None).
Proof. vm_compute. reflexivity. Qed.

Example bootstrap_without_jwts :
  @registerControllers Demo.env DemoHost.compiled (mkRegisterOptions None None) []
  = ([TraceHandler],
     Some (Error "A JWTS configuration is required since the controller /users/:id/get is private.")).
Proof. vm_compute. reflexivity. Qed.
